(** * Task interface of the Tellina user study: sessions, scheduler, sandboxes

    A shallow embedding of [website/models.py] and of the parts of
    [website/views.py] that decide task scheduling, task completion and
    the resumption of study sessions.

    Python integers are [Z]; [TextField]s are [string]; a [DateTimeField]
    is a [Z] time stamp.  A Python exception is a constructor of [exn];
    code that can raise returns a [result]; code that also writes to the
    database or drives Docker is a function of the [World], and a method
    that assigns to [self] returns the object along with the world. *)

From Stdlib Require Import ZArith List String Ascii Bool Lia.
From stdpp Require Import base option list strings pretty gmap fin_maps fin_sets.

Local Open Scope string_scope.
Local Open Scope list_scope.
Local Open Scope Z_scope.

(** ** Python exceptions and results *)

Inductive exn : Set :=
| AttributeError
| ValueError
| AssertionError
| IndexError
| ObjectDoesNotExist
| MultipleObjectsReturned
| IntegrityError
| OSError
| DockerException.

Inductive result (A : Type) : Type :=
| Ok (a : A)
| Raise (e : exn).
Arguments Ok {A} a.
Arguments Raise {A} e.

(** ** Python built-ins used by the code *)

(** [s in l] for a list of strings. *)
Definition str_in_list (s : string) (l : list string) : bool :=
  existsb (String.eqb s) l.

(** [len(l)] *)
Definition len {A} (l : list A) : Z := Z.of_nat (length l).

(** [l[i]]: a negative index counts from the end; out of range raises
    [IndexError]. *)
Definition py_index {A} (l : list A) (i : Z) : result A :=
  let j := if i <? 0 then len l + i else i in
  if j <? 0 then Raise IndexError
  else match l !! Z.to_nat j with
       | Some x => Ok x
       | None => Raise IndexError
       end.

(** [s.startswith(p)] *)
Fixpoint startswith (p s : string) : bool :=
  match p, s with
  | EmptyString, _ => true
  | String a p', String b s' => Ascii.eqb a b && startswith p' s'
  | String _ _, EmptyString => false
  end.

(** [p in s] for strings: [p] occurs as a substring of [s]. *)
Fixpoint str_in (p s : string) : bool :=
  startswith p s ||
  match s with
  | EmptyString => false
  | String _ s' => str_in p s'
  end.

Definition newline : ascii := "010"%char.

(** [s.split('\n')] *)
Fixpoint split_lines (s : string) : list string :=
  match s with
  | EmptyString => [EmptyString]
  | String c s' =>
      if Ascii.eqb c newline then EmptyString :: split_lines s'
      else match split_lines s' with
           | h :: t => String c h :: t
           | [] => [String c EmptyString]
           end
  end.

(** ** models.py: module constants *)

Definition WEBSITE_DEVELOP : bool := true.

(* unimplemented tasks: 3, 20 *)
Definition TASK_TRAINING : list Z := [21; 22].
Definition TASK_BLOCK_I : list Z := [5; 10; 6; 9; 19; 1; 18; 17; 16].
Definition TASK_BLOCK_II : list Z := [8; 7; 2; 14; 12; 4; 13; 15; 11].

(** ** models.py: class User *)

Module User.
Record t := mk {
    pk : Z;  (* Django's implicit primary key [id] *)
    access_code : string;
    first_name : string;
    last_name : string;
    group : string  (* default 'group1' *)
  }.
End User.

(** ** models.py: class Task *)

Module Task.
Record t := mk {
    task_id : Z;
    type : string;
    description : string;
    file_attributes : string;
    initial_filesystem : string;
    goal_filesystem : string;
    stdout : string;
    duration : Z
  }.
End Task.

(** ** The world: clock, host and database *)

(** What the Docker daemon knows of a live container: the virtual
    filesystem mounted as its home directory and the published host port. *)
Record docker_container := mk_docker_container {
  mount : string;
  host_port : Z
}.

(** ** models.py: class Container (the row) *)

Module ContainerRow.
Record t := mk {
    container_id : string;
    filesystem_name : string;
    port : Z
  }.
End ContainerRow.

(** The state the code runs against.  [SS] and [TS] are the row types of
    the StudySession and TaskSession tables, which are keyed by their
    primary key [session_id]. *)
Record World (SS TS : Type) := mk_world {
  clock : Z;                                 (* timezone.now() *)
  docker : gmap string docker_container;     (* live containers, by id *)
  docker_ids : gset string;                  (* every id handed out so far *)
  docker_next_port : Z;
  filesystems : gset string;                 (* virtual filesystems /{name}/home *)
  Task_objects : list Task.t;
  Container_objects : list ContainerRow.t;
  StudySession_objects : gmap string SS;
  TaskSession_objects : gmap string TS
}.
Arguments mk_world {SS TS}.
Arguments clock {SS TS}.
Arguments docker {SS TS}.
Arguments docker_ids {SS TS}.
Arguments docker_next_port {SS TS}.
Arguments filesystems {SS TS}.
Arguments Task_objects {SS TS}.
Arguments Container_objects {SS TS}.
Arguments StudySession_objects {SS TS}.
Arguments TaskSession_objects {SS TS}.

Section WorldUpdates.
Context {SS TS : Type}.
Implicit Type w : World SS TS.

Definition with_docker (d : gmap string docker_container) w : World SS TS :=
    mk_world (clock w) d (docker_ids w) (docker_next_port w) (filesystems w)
      (Task_objects w) (Container_objects w)
      (StudySession_objects w) (TaskSession_objects w).

Definition with_docker_ids (ids : gset string) w : World SS TS :=
    mk_world (clock w) (docker w) ids (docker_next_port w) (filesystems w)
      (Task_objects w) (Container_objects w)
      (StudySession_objects w) (TaskSession_objects w).

Definition with_docker_next_port (p : Z) w : World SS TS :=
    mk_world (clock w) (docker w) (docker_ids w) p (filesystems w)
      (Task_objects w) (Container_objects w)
      (StudySession_objects w) (TaskSession_objects w).

Definition with_filesystems (fs : gset string) w : World SS TS :=
    mk_world (clock w) (docker w) (docker_ids w) (docker_next_port w) fs
      (Task_objects w) (Container_objects w)
      (StudySession_objects w) (TaskSession_objects w).

Definition with_Container_objects (cs : list ContainerRow.t) w : World SS TS :=
    mk_world (clock w) (docker w) (docker_ids w) (docker_next_port w)
      (filesystems w) (Task_objects w) cs
      (StudySession_objects w) (TaskSession_objects w).

Definition with_StudySession_objects (t : gmap string SS) w : World SS TS :=
    mk_world (clock w) (docker w) (docker_ids w) (docker_next_port w)
      (filesystems w) (Task_objects w) (Container_objects w)
      t (TaskSession_objects w).

Definition with_TaskSession_objects (t : gmap string TS) w : World SS TS :=
    mk_world (clock w) (docker w) (docker_ids w) (docker_next_port w)
      (filesystems w) (Task_objects w) (Container_objects w)
      (StudySession_objects w) t.

  (** [timezone.now()] *)
Definition timezone_now w : Z := clock w.

  (** [subprocess.run(['docker', 'rm', '-f', container_id])]: the container
      is removed if it is there; [subprocess.run] is called without
      [check=True], so a failing command raises nothing. *)
Definition docker_rm (container_id : string) w : World SS TS :=
    with_docker (delete container_id (docker w)) w.

  (** Modelled from the spec: [delete_filesystem.bash] is not among the
      sources; by section 6 it is the [deleteRoot(name)] collaborator,
      which removes the backing filesystem storage of that name (section 3,
      section 4.4).  Its exit status is ignored by the caller. *)
Definition delete_filesystem (name : string) w : World SS TS :=
    with_filesystems (filesystems w ∖ {[name]}) w.

  (** Modelled from the spec: [make_filesystem.bash] is not among the
      sources; by section 6 it is the [makeRoot(name)] collaborator, which
      allocates the virtual filesystem root of that name. *)
Definition make_filesystem (name : string) w : World SS TS :=
    with_filesystems ({[name]} ∪ filesystems w) w.

  (** [client.create_container(...)] and [docker start], when they
      succeed: the daemon hands out an identifier it has never used, mounts
      [/{filesystem_name}/home] as the home directory and publishes port
      10411 on a host port. *)
Definition docker_create (filesystem_name : string) w
    : string * Z * World SS TS :=
    let container_id := fresh (docker_ids w) in
    let port := docker_next_port w in
    (container_id, port,
     with_docker (<[container_id := mk_docker_container filesystem_name port]>
                    (docker w))
       (with_docker_ids ({[container_id]} ∪ docker_ids w)
          (with_docker_next_port (port + 1) w))).
End WorldUpdates.

(** ** models.py: class Container (the methods) *)

Module Container.
Include ContainerRow.

Section Methods.
Context {SS TS : Type}.

    (** [destroy]: destroys container and filesystem (the deletion of the
        table entry is commented out in the source). *)
Definition destroy (self : t) (w : World SS TS) : World SS TS :=
      (* Destroy Docker container *)
      let w := docker_rm (container_id self) w in
      (* Destroy filesystem *)
      delete_filesystem (filesystem_name self) w.
End Methods.
End Container.

(** What the environment does to one call of [create_container].  The
    commands run through [subprocess] (whose executables are taken to be
    there) raise nothing whatever their exit status; the calls of the
    Docker client can raise, and so can [os.utime],
    which the fix-ups of tasks 7 and 8 call on files of the filesystem, and
    the look-up of the published port in the result of
    [client.inspect_container].  The exception is the one the environment
    raises. *)
Inductive provisioning : Type :=
| provisioned
| create_fails (e : exn)
| utime_fails (e : exn)
| inspect_fails (e : exn).

(** [create_container(filesystem_name, task)].  The [chown] and the
    [adduser] and [useradd] of task 3 change owners and users inside the
    container, which the world does not record; nothing in the function
    catches an exception or removes what has been made before it. *)
Definition create_container {SS TS} (filesystem_name : string) (task : Task.t)
    (fate : provisioning) (w : World SS TS)
  : result Container.t * World SS TS :=
  (* Make virtual filesystem *)
  let w := make_filesystem filesystem_name w in
  (* Create Docker container *)
  match fate with
  | create_fails e => (Raise e, w)
  | _ =>
      (* Get ID of created container, start it *)
      let '(container_id, port, w) := docker_create filesystem_name w in
      (* Change file parameters according to the task specification *)
      let utime :=
        if (Task.task_id task =? 7) || (Task.task_id task =? 8) then
          match fate with
          | utime_fails e => Raise e
          | _ => Ok tt
          end
        else Ok tt in
      match utime with
      | Raise e => (Raise e, w)
      | Ok _ =>
          (* Find what port the container was mapped to *)
          match fate with
          | inspect_fails e => (Raise e, w)
          | _ =>
              (* Create container model object *)
              let container :=
                Container.mk container_id filesystem_name port in
              (Ok container,
               with_Container_objects (Container_objects w ++ [container]) w)
          end
      end
  end.

(** ** models.py: class StudySession *)

Module StudySession.
Record t := mk {
    user : User.t;
    session_id : string;
    creation_time : Z;
    end_time : Z;
    total_num_training_tasks : Z;
    total_num_tasks : Z;
    current_task_session_id : string;
    num_tasks_completed : Z;
    filesystem_change_seen : bool;
    file_search_seen : bool;
    standard_output_seen : bool;
    status : string;
    (* [close] assigns [self.close_time]; the class declares no such column
       (the column is [end_time]), so it is an attribute of the object in
       memory only and [save] does not write it. *)
    close_time : option Z
  }.

(* '1111-11-11 00:00:00' *)
Definition default_end_time : Z := -27080352000.
Definition default_total_num_training_tasks : Z := len TASK_TRAINING.
Definition default_total_num_tasks : Z := len TASK_BLOCK_I + len TASK_BLOCK_II.

Definition set_status (v : string) (s : t) : t :=
    mk (user s) (session_id s) (creation_time s) (end_time s)
       (total_num_training_tasks s) (total_num_tasks s)
       (current_task_session_id s) (num_tasks_completed s)
       (filesystem_change_seen s) (file_search_seen s)
       (standard_output_seen s) v (close_time s).

Definition set_current_task_session_id (v : string) (s : t) : t :=
    mk (user s) (session_id s) (creation_time s) (end_time s)
       (total_num_training_tasks s) (total_num_tasks s)
       v (num_tasks_completed s)
       (filesystem_change_seen s) (file_search_seen s)
       (standard_output_seen s) (status s) (close_time s).

Definition set_num_tasks_completed (v : Z) (s : t) : t :=
    mk (user s) (session_id s) (creation_time s) (end_time s)
       (total_num_training_tasks s) (total_num_tasks s)
       (current_task_session_id s) v
       (filesystem_change_seen s) (file_search_seen s)
       (standard_output_seen s) (status s) (close_time s).

Definition set_close_time (v : Z) (s : t) : t :=
    mk (user s) (session_id s) (creation_time s) (end_time s)
       (total_num_training_tasks s) (total_num_tasks s)
       (current_task_session_id s) (num_tasks_completed s)
       (filesystem_change_seen s) (file_search_seen s)
       (standard_output_seen s) (status s) (Some v).

Definition set_filesystem_change_seen (v : bool) (s : t) : t :=
    mk (user s) (session_id s) (creation_time s) (end_time s)
       (total_num_training_tasks s) (total_num_tasks s)
       (current_task_session_id s) (num_tasks_completed s)
       v (file_search_seen s)
       (standard_output_seen s) (status s) (close_time s).

Definition set_file_search_seen (v : bool) (s : t) : t :=
    mk (user s) (session_id s) (creation_time s) (end_time s)
       (total_num_training_tasks s) (total_num_tasks s)
       (current_task_session_id s) (num_tasks_completed s)
       (filesystem_change_seen s) v
       (standard_output_seen s) (status s) (close_time s).

Definition set_standard_output_seen (v : bool) (s : t) : t :=
    mk (user s) (session_id s) (creation_time s) (end_time s)
       (total_num_training_tasks s) (total_num_tasks s)
       (current_task_session_id s) (num_tasks_completed s)
       (filesystem_change_seen s) (file_search_seen s)
       v (status s) (close_time s).

  (** The row [save] writes: the declared columns, without the attributes
      that only live on the Python object. *)
Definition row (s : t) : t :=
    mk (user s) (session_id s) (creation_time s) (end_time s)
       (total_num_training_tasks s) (total_num_tasks s)
       (current_task_session_id s) (num_tasks_completed s)
       (filesystem_change_seen s) (file_search_seen s)
       (standard_output_seen s) (status s) None.

  (** [task_block_order] *)
Definition task_block_order (s : t) : string :=
    if str_in_list (User.group (user s)) ["group1"; "group4"] then "0" else "1".

  (** [switch_point]: number of tasks in the first part of the study *)
Definition switch_point (s : t) : Z :=
    if str_in_list (User.group (user s)) ["group1"; "group4"]
    then len TASK_BLOCK_I
    else len TASK_BLOCK_II.

  (** [treatment_order] *)
Definition treatment_order (s : t) : string :=
    if str_in_list (User.group (user s)) ["group1"; "group3"] then "0" else "1".

  (** [stage] (a property): the two assertions come first. *)
Definition stage (s : t) : result string :=
    if negb WEBSITE_DEVELOP && negb (len TASK_BLOCK_I =? len TASK_BLOCK_II)
    then Raise AssertionError
    else if negb (num_tasks_completed s <=? total_num_tasks s)
    then Raise AssertionError
    else if str_in_list (status s) ["pre-consent"; "pre-training"; "training"]
    then Ok "O"
    else if String.eqb (status s) "running" then
      if num_tasks_completed s <? switch_point s then Ok "I"
      else if num_tasks_completed s <? total_num_tasks s then Ok "II"
      else Ok "III"
    else Raise ValueError.

  (** [stage_change] *)
Definition stage_change (s : t) : bool :=
    if String.eqb (status s) "running" then
      if (num_tasks_completed s =? 0)
         || (num_tasks_completed s =? switch_point s)
         || (num_tasks_completed s =? total_num_tasks s)
      then true else false
    else false.

  (** *** Methods that write to the database *)

Section Methods.
Context {TS : Type}.
Implicit Type w : World t TS.

    (** [self.save()]: the row with this primary key is written. *)
Definition save (self : t) w : World t TS :=
      with_StudySession_objects
        (<[session_id self := row self]> (StudySession_objects w)) w.

    (** [close(reason_for_close)] *)
Definition close (reason_for_close : string) (self : t) w
      : t * World t TS :=
      (* ignore already closed study sessions *)
      if String.eqb (status self) "running"
         || String.eqb (status self) "paused" then
        let self := set_current_task_session_id "" self in
        let self := set_close_time (timezone_now w) self in
        let self := set_status reason_for_close self in
        (self, save self w)
      else (self, w).

    (** [inc_num_tasks_completed()] *)
Definition inc_num_tasks_completed (self : t) w : t * World t TS :=
      let self := set_num_tasks_completed (num_tasks_completed self + 1) self in
      let self :=
        if String.eqb (status self) "training"
           && (num_tasks_completed self =? total_num_training_tasks self)
        then
          (* reset num_tasks_completed when the training session is completed *)
          set_status "running" (set_num_tasks_completed 0 self)
        else self in
      (self, save self w).

    (** [update_current_task_session_id()] *)
Definition update_current_task_session_id (self : t) w
      : result string * t * World t TS :=
      let new_task_session_id :=
        if str_in_list (status self) ["pre-consent"; "pre-training"; "training"]
        then Ok (session_id self +:+ "-training-task-"
                 +:+ pretty (num_tasks_completed self + 1))
        else if String.eqb (status self) "running"
        then Ok (session_id self +:+ "-task-"
                 +:+ pretty (num_tasks_completed self + 1))
        else Raise ValueError in
      match new_task_session_id with
      | Ok id =>
          let self := set_current_task_session_id id self in
          (Ok id, self, save self w)
      | Raise e => (Raise e, self, w)
      end.

    (** [update_filesystem_change_seen()] *)
Definition update_filesystem_change_seen (self : t) w : t * World t TS :=
      let self := set_filesystem_change_seen true self in
      (self, save self w).

    (** [update_file_search_seen()] *)
Definition update_file_search_seen (self : t) w : t * World t TS :=
      let self := set_file_search_seen true self in
      (self, save self w).

    (** [update_standard_output_seen()] *)
Definition update_standard_output_seen (self : t) w : t * World t TS :=
      let self := set_standard_output_seen true self in
      (self, save self w).
End Methods.
End StudySession.

(** ** models.py: class TaskSession *)

Module TaskSession.
Record t := mk {
    study_session : string;   (* foreign key: the StudySession's session_id *)
    study_session_stage : string;
    session_id : string;
    (* [None]: the object has no container set.  The column is declared
       without [null=True]: reading the field of such an object raises
       RelatedObjectDoesNotExist, which is an AttributeError, and a row
       cannot be inserted without a container. *)
    container : option Container.t;
    is_training : bool;
    task : Task.t;
    start_time : Z;
    end_time : Z;
    status : string
  }.

  (* '1111-11-11 00:00:00' *)
Definition default_end_time : Z := -27080352000.

Definition set_container (v : option Container.t) (s : t) : t :=
    mk (study_session s) (study_session_stage s) (session_id s) v
       (is_training s) (task s) (start_time s) (end_time s) (status s).

Definition set_end_time (v : Z) (s : t) : t :=
    mk (study_session s) (study_session_stage s) (session_id s) (container s)
       (is_training s) (task s) (start_time s) v (status s).

Definition set_status (v : string) (s : t) : t :=
    mk (study_session s) (study_session_stage s) (session_id s) (container s)
       (is_training s) (task s) (start_time s) (end_time s) v.

Abbreviation world := (World StudySession.t t).

  (** [self.save()] *)
Definition save (self : t) (w : world) : world :=
    with_TaskSession_objects
      (<[session_id self := self]> (TaskSession_objects w)) w.

  (** [TaskSession.objects.create(study_session=..., session_id=...,
      task=..., start_time=..., status=...)]: the fields that are not
      given take their declared defaults, so the container is [None]; the
      column of the container is NOT NULL, so the insertion fails. *)
Definition objects_create (study_session : StudySession.t)
      (session_id : string) (task : Task.t) (start_time : Z) (status : string)
      (w : world) : result t * world :=
    let self := mk (StudySession.session_id study_session) "" session_id
                   None false task start_time default_end_time status in
    match container self with
    | None => (Raise IntegrityError, w)
    | Some _ =>
        match TaskSession_objects w !! session_id with
        | Some _ => (Raise IntegrityError, w)
        | None => (Ok self, save self w)
        end
    end.

  (** [self.study_session]: the related row is fetched from the database. *)
Definition get_study_session (self : t) (w : world)
    : result StudySession.t :=
    match StudySession_objects w !! study_session self with
    | Some s => Ok s
    | None => Raise ObjectDoesNotExist
    end.

  (** One of the three guarded updates at the head of [close]:
      [if self.task.type == ty and not self.study_session.<seen>:
           self.study_session.update_<seen>()] *)
Definition update_seen (ty : string) (seen : StudySession.t -> bool)
      (update : StudySession.t -> world -> StudySession.t * world)
      (self : t) (w : world) : result unit * world :=
    if String.eqb (Task.type (task self)) ty then
      match get_study_session self w with
      | Raise e => (Raise e, w)
      | Ok s => if negb (seen s) then (Ok tt, snd (update s w)) else (Ok tt, w)
      end
    else (Ok tt, w).

  (** [close(reason_for_close)] *)
Definition close (reason_for_close : string) (self : t) (w : world)
    : result unit * t * world :=
    match update_seen "stdout" StudySession.standard_output_seen
            StudySession.update_standard_output_seen self w with
    | (Raise e, w) => (Raise e, self, w)
    | (Ok _, w) =>
    match update_seen "file_search" StudySession.file_search_seen
            StudySession.update_file_search_seen self w with
    | (Raise e, w) => (Raise e, self, w)
    | (Ok _, w) =>
    match update_seen "filesystem_change" StudySession.filesystem_change_seen
            StudySession.update_filesystem_change_seen self w with
    | (Raise e, w) => (Raise e, self, w)
    | (Ok _, w) =>
        let self := set_end_time (timezone_now w) self in
        match container self with
        | None => (Raise AttributeError, self, w)   (* None.destroy() *)
        | Some c =>
            let w := Container.destroy c w in
            let self := set_status reason_for_close self in
            (Ok tt, self, save self w)
        end
    end end end.

  (** [destroy_container()] *)
Definition destroy_container (self : t) (w : world)
    : result unit * t * world :=
    match container self with
    | None => (Raise AttributeError, self, w)       (* None.destroy() *)
    | Some c =>
        let w := Container.destroy c w in
        (Ok tt, set_container None self, w)
    end.

  (** [create_new_container()], [fate] being what the environment does to
      the provisioning.  On an object without a container the test
      [if self.container:] itself raises. *)
Definition create_new_container (fate : provisioning) (self : t) (w : world)
    : result unit * t * world :=
    match container self with
    | None => (Raise AttributeError, self, w)
    | Some _ =>
        (* make sure any existing container is destroyed *)
        let '(r, self, w) := destroy_container self w in
        match r with
        | Raise e => (Raise e, self, w)
        | Ok _ =>
            match create_container (session_id self) (task self) fate w with
            | (Raise e, w) => (Raise e, self, w)
            | (Ok c, w) =>
                let self := set_container (Some c) self in
                (Ok tt, self, save self w)
            end
        end
    end.

  (** One of the three blocks of [page_tour], with [s] the object
      [self.study_session]. *)
Definition page_tour_block (ty : string) (seen : StudySession.t -> bool)
      (init first : string) (self : t) (s : StudySession.t)
      (page_tour : option string) : option string :=
    if String.eqb (Task.type (task self)) ty then
      if negb (seen s) then
        if String.eqb (StudySession.status s) "training"
           && (StudySession.num_tasks_completed s =? 0)
        then Some init
        else Some first
      else page_tour
    else page_tour.

  (** [page_tour] (a property), with [s] the object [self.study_session]. *)
Definition page_tour (self : t) (s : StudySession.t) : option string :=
    let page_tour := None in
    let page_tour :=
      page_tour_block "stdout" StudySession.standard_output_seen
        "init_standard_output" "first_standard_output" self s page_tour in
    let page_tour :=
      page_tour_block "file_search" StudySession.file_search_seen
        "init_file_search" "first_file_search" self s page_tour in
    let page_tour :=
      page_tour_block "filesystem_change" StudySession.filesystem_change_seen
        "init_filesystem_change" "first_filesystem_change" self s page_tour in
    page_tour.

  (** [page_tour] read from the database: the study session is only
      fetched when the task has one of the three types. *)
Definition page_tour_db (self : t) (w : world) : result (option string) :=
    if str_in_list (Task.type (task self))
         ["stdout"; "file_search"; "filesystem_change"]
    then match get_study_session self w with
         | Ok s => Ok (page_tour self s)
         | Raise e => Raise e
         end
    else Ok None.
End TaskSession.

Abbreviation world := (World StudySession.t TaskSession.t).

(** ** views.py *)

Module views.

(** The JSON body fields and the cookies of a response. *)
Record response := mk_response {
  resp_status : string;
  resp_task_session_id : string;
  resp_cookies : list (string * string)
}.

(** [Task.objects.get(task_id=task_id)] *)
Definition Task_objects_get (task_id : Z) (w : world) : result Task.t :=
  match filter (fun t => bool_decide (Task.task_id t = task_id))
               (Task_objects w) with
  | [] => Raise ObjectDoesNotExist
  | [t] => Ok t
  | _ => Raise MultipleObjectsReturned
  end.

(** The choice of the task id in [pick_task(num_tasks_completed)];
    [TASK_BLOCK_I] is a list, so the branch [TASK_BLOCK_I is not None]
    is the one taken. *)
Definition pick_task_id (num_tasks_completed : Z) : result Z :=
  if num_tasks_completed <? len TASK_BLOCK_I then
    (* user is in the first part of the study *)
    py_index TASK_BLOCK_I num_tasks_completed
  else
    (* user is in the second part of the study *)
    py_index TASK_BLOCK_II (num_tasks_completed - len TASK_BLOCK_I).

(** [pick_task(num_tasks_completed)] *)
Definition pick_task (num_tasks_completed : Z) (w : world) : result Task.t :=
  match pick_task_id num_tasks_completed with
  | Ok task_id => Task_objects_get task_id w
  | Raise e => Raise e
  end.

(** The task [go_to_next_task] gives to the new task session of
    [study_session], after [num_tasks_completed] has been read from it
    (lines 118 and 147). *)
Definition next_task (study_session : StudySession.t) (w : world)
  : result Task.t :=
  let num_tasks_completed := StudySession.num_tasks_completed study_session in
  pick_task num_tasks_completed w.

(** [task.goal]: class [Task] of models.py declares no field, property or
    method of that name (its fields are [goal_filesystem] and [stdout]), so
    the attribute lookup on the instance fails. *)
Definition Task_goal (task : Task.t) : result string :=
  Raise AttributeError.

(** The completion check of [on_command_execution] (lines 264-277), on
    the task, on [stdout_lines] and on the truth value of
    [fs_diff['tag']].  In [task.goal in stdout_lines[-2]] the left operand
    is evaluated first. *)
Definition task_completed (task : Task.t)
    (stdout_lines : list string) (fs_diff_tag : bool) : result bool :=
  if String.eqb (Task.type task) "stdout" then
    (* check if stdout signals task completion *)
    match Task_goal task with
    | Raise e => Raise e
    | Ok goal =>
        match py_index stdout_lines (-2) with
        | Ok line => if str_in goal line then Ok true else Ok false
        | Raise e => Raise e
        end
    end
  else if String.eqb (Task.type task) "filesearch"
          || String.eqb (Task.type task) "filesystem" then
    (* check if the current file system is the same as the goal file system *)
    if negb fs_diff_tag then Ok true else Ok false
  else Raise AttributeError.

(** The same check on the posted [stdout]: [stdout_lines = stdout.split('\n')],
    and the status of the JSON response that follows (lines 279-283). *)
Definition on_command_execution_status (task : Task.t) (stdout : string)
    (fs_diff_tag : bool) : result string :=
  let stdout_lines := split_lines stdout in
  match task_completed task stdout_lines fs_diff_tag with
  | Ok true => Ok "TASK_COMPLETED"
  | Ok false => Ok "SUCCESS"
  | Raise e => Raise e
  end.

(** [session.container] in [close_study_session]: class [StudySession] of
    models.py declares no field, property or method of that name, so the
    attribute lookup on the instance fails. *)
Definition StudySession_container (session : StudySession.t)
  : result Container.t :=
  Raise AttributeError.

(** [close_study_session(session, reason_for_close)] *)
Definition close_study_session (session : StudySession.t)
    (reason_for_close : string) (w : world)
  : result unit * StudySession.t * world :=
  (* ignore already closed study sessions *)
  if String.eqb (StudySession.status session) "running"
     || String.eqb (StudySession.status session) "paused" then
    let session := StudySession.set_current_task_session_id "" session in
    let session := StudySession.set_status reason_for_close session in
    let w := StudySession.save session w in
    (* destroy the container associated with the study session *)
    match StudySession_container session with
    | Ok container => (Ok tt, session, Container.destroy container w)
    | Raise e => (Raise e, session, w)
    end
  else (Ok tt, session, w).

(** [.order_by('creation_time')], by insertion. *)
Fixpoint insert_by_creation_time (s : StudySession.t)
    (l : list StudySession.t) : list StudySession.t :=
  match l with
  | [] => [s]
  | x :: l' =>
      if StudySession.creation_time s <? StudySession.creation_time x
      then s :: l
      else x :: insert_by_creation_time s l'
  end.

Definition order_by_creation_time (l : list StudySession.t)
  : list StudySession.t :=
  foldr insert_by_creation_time [] l.

(** [StudySession.objects.filter(user=user, status='running')
      .order_by('creation_time')] *)
Definition running_sessions (user : User.t) (w : world)
  : list StudySession.t :=
  order_by_creation_time
    (filter (fun s => bool_decide
                        (User.pk (StudySession.user s) = User.pk user
                         /\ StudySession.status s = "running"))
            (snd <$> map_to_list (StudySession_objects w))).

(** The first loop of [user_login] (lines 383-395). *)
Fixpoint check_sessions (sessions healthy_sessions : list StudySession.t)
    (w : world) : result (list StudySession.t) * world :=
  match sessions with
  | [] => (Ok healthy_sessions, w)
  | session :: sessions =>
      match TaskSession_objects w
              !! StudySession.current_task_session_id session with
      | Some task_session =>
          if String.eqb (TaskSession.status task_session) "running"
             || String.eqb (TaskSession.status task_session) "paused"
          then check_sessions sessions (healthy_sessions ++ [session]) w
          else
            match close_study_session session "closed_with_error" w with
            | (Ok _, _, w) => check_sessions sessions healthy_sessions w
            | (Raise e, _, w) => (Raise e, w)
            end
      | None =>
          (* except ObjectDoesNotExist: task session is corrupted *)
          match close_study_session session "closed_with_error" w with
          | (Ok _, _, w) => check_sessions sessions healthy_sessions w
          | (Raise e, _, w) => (Raise e, w)
          end
      end
  end.

(** The second loop (lines 399-400). *)
Fixpoint close_sessions (sessions : list StudySession.t) (w : world)
  : result unit * world :=
  match sessions with
  | [] => (Ok tt, w)
  | session :: sessions =>
      match close_study_session session "closed_with_error" w with
      | (Ok _, _, w) => close_sessions sessions w
      | (Raise e, _, w) => (Raise e, w)
      end
  end.

(** [user_login] with [check_existing_session == "true"], for the user
    found by the access code (lines 380-410).  [Ok None] stands for
    [no_existing_session = True]. *)
Definition user_login_check_existing (user : User.t) (w : world)
  : result (option response) * world :=
  let healthy_sessions := [] in
  match check_sessions (running_sessions user w) healthy_sessions w with
  | (Raise e, w) => (Raise e, w)
  | (Ok healthy_sessions, w) =>
      match last healthy_sessions with
      | Some session =>
          (* close previous running sessions if not properly closed *)
          let existing_sessions := healthy_sessions in
          match close_sessions (removelast existing_sessions) w with
          | (Raise e, w) => (Raise e, w)
          | (Ok _, w) =>
              (Ok (Some (mk_response "RUNNING_STUDY_SESSION_FOUND"
                   (StudySession.current_task_session_id session)
                   [("session_id", StudySession.session_id session);
                    ("task_session_id",
                     StudySession.current_task_session_id session)])), w)
          end
      | None => (Ok None, w)
      end
  end.

(** *** Requests and responses *)

(** A JSON value of a response body. *)
Inductive jvalue : Type :=
| JStr (s : string)
| JInt (n : Z).

(** A [JsonResponse]: its body and the cookies set on it, in order. *)
Record http_response := mk_http_response {
  json : gmap string jvalue;
  cookies : list (string * string)
}.

(** [resp.set_cookie(key, value)] *)
Definition set_cookie (key value : string) (resp : http_response)
  : http_response :=
  mk_http_response (json resp) (cookies resp ++ [(key, value)]).

(** How a view ends: with a response, with an exception that nothing
    catches, or with the [KeyError] of a missing cookie or parameter. *)
Inductive outcome (A : Type) : Type :=
| Respond (a : A)
| Uncaught (e : exn)
| KeyError (key : string).
Arguments Respond {A} a.
Arguments Uncaught {A} e.
Arguments KeyError {A} key.

(** [get_task_session_id(study_session_id, num_tasks_completed)] *)
Definition get_task_session_id (study_session_id : string)
    (num_tasks_completed : Z) : string :=
  study_session_id +:+ "/task-" +:+ pretty (num_tasks_completed + 1).

(** [json_response(d, status)]: [d.update({'status': status})], then
    [JsonResponse(d)]. *)
Definition json_response (d : gmap string jvalue) (status : string)
  : http_response :=
  mk_http_response (<["status" := JStr status]> d) [].

(** [json_response(status=status)] with [d] left out: [d] is then the one
    dictionary made when the function was defined, which every such call
    updates in place.  The second component is that dictionary after the
    call. *)
Definition json_response_default (status : string)
    (default_d : gmap string jvalue)
  : http_response * gmap string jvalue :=
  let d := <["status" := JStr status]> default_d in
  (mk_http_response d [], d).

(** [task_session_id_required(f)]: the decorated view, on the cookies of
    the request.  The default dictionary of [json_response] holds the key
    'status' at most, which each call overwrites, so the body of these
    responses is the status alone. *)
Definition task_session_id_required
    (f : TaskSession.t -> world -> outcome http_response * world)
    (COOKIES : gmap string string) (w : world)
  : outcome http_response * world :=
  match COOKIES !! "session_id" with
  | None => (KeyError "session_id", w)
  | Some session_id =>
  match COOKIES !! "task_session_id" with
  | None => (KeyError "task_session_id", w)
  | Some task_session_id =>
      (* ensure that the task session id matches with the study session id *)
      if negb (startswith session_id task_session_id) then
        (Respond (json_response ∅ "STUDY_SESSION_AND_TASK_SESSION_MISMATCH"), w)
      else
        match TaskSession_objects w !! task_session_id with
        | None => (Respond (json_response ∅ "TASK_SESSION_DOES_NOT_EXIST"), w)
        | Some task_session =>
            match f task_session w with
            | (Uncaught ObjectDoesNotExist, w) =>
                (Respond (json_response ∅ "TASK_SESSION_DOES_NOT_EXIST"), w)
            | (r, w) => (r, w)
            end
        end
  end end.

(** [session_id_required(f)] *)
Definition session_id_required
    (f : StudySession.t -> world -> outcome http_response * world)
    (COOKIES : gmap string string) (w : world)
  : outcome http_response * world :=
  match COOKIES !! "session_id" with
  | None => (KeyError "session_id", w)
  | Some session_id =>
      match StudySession_objects w !! session_id with
      | None => (Respond (json_response ∅ "STUDY_SESSION_DOES_NOT_EXIST"), w)
      | Some study_session =>
          match f study_session w with
          | (Uncaught ObjectDoesNotExist, w) =>
              (Respond (json_response ∅ "STUDY_SESSION_DOES_NOT_EXIST"), w)
          | (r, w) => (r, w)
          end
      end
  end.

(** [TaskSession.objects.filter(study_session=study_session,
      status=status).count()] *)
Definition count_task_sessions (study_session : StudySession.t)
    (status : string) (w : world) : Z :=
  len (filter
         (fun ts => bool_decide
            (TaskSession.study_session ts = StudySession.session_id study_session
             /\ TaskSession.status ts = status))
         (snd <$> map_to_list (TaskSession_objects w))).

(** [go_to_next_task(request, task_session)], before decoration, on the
    parameters of the request. *)
Definition go_to_next_task (GET : gmap string string)
    (task_session : TaskSession.t) (w : world)
  : outcome http_response * world :=
  let current_task_session := task_session in
  match TaskSession.get_study_session current_task_session w with
  | Raise e => (Uncaught e, w)
  | Ok study_session =>
  (* if a task session has ended, ignore requests for updating task
     attributes *)
  let closed :=
    if String.eqb (TaskSession.status current_task_session) "running" then
      (* close current_task_session *)
      let current_task_session :=
        TaskSession.set_end_time (timezone_now w) current_task_session in
      match GET !! "reason_for_close" with
      | None => inl "reason_for_close"
      | Some reason =>
          let current_task_session :=
            TaskSession.set_status reason current_task_session in
          let w := TaskSession.save current_task_session w in
          inr (StudySession.set_num_tasks_completed
                 (StudySession.num_tasks_completed study_session + 1)
                 study_session, w)
      end
    else inr (study_session, w) in
  match closed with
  | inl key => (KeyError key, w)
  | inr (study_session, w) =>
  (* check for user study completion *)
  let num_tasks_completed := StudySession.num_tasks_completed study_session in
  if negb (num_tasks_completed <=? StudySession.total_num_tasks study_session)
  then (Uncaught AssertionError, w)
  else if num_tasks_completed =? StudySession.total_num_tasks study_session
  then
    match close_study_session study_session "finished" w with
    | (Raise e, _, w) => (Uncaught e, w)
    | (Ok _, study_session, w) =>
        let resp :=
          json_response
            {[ "num_passed" :=
                 JInt (count_task_sessions study_session "passed" w);
               "num_given_up" :=
                 JInt (count_task_sessions study_session "quit" w);
               "num_total" :=
                 JInt (StudySession.total_num_tasks study_session) ]}
            "STUDY_SESSION_COMPLETE" in
        let resp := set_cookie "session_id" "" resp in
        let resp := set_cookie "task_session_id" "" resp in
        (Respond resp, w)
    end
  else
    (* wipe out everything in the user's home directory *)
    match StudySession_container study_session with
    | Raise e => (Uncaught e, w)
    | Ok container =>
        let next_task_session_id :=
          get_task_session_id (StudySession.session_id study_session)
            num_tasks_completed in
        let study_session :=
          StudySession.set_current_task_session_id next_task_session_id
            study_session in
        let w := StudySession.save study_session w in
        match pick_task num_tasks_completed w with
        | Raise e => (Uncaught e, w)
        | Ok task =>
            match TaskSession.objects_create study_session
                    next_task_session_id task (timezone_now w) "running" w with
            | (Raise e, w) => (Uncaught e, w)
            | (Ok _, w) =>
                let resp :=
                  json_response
                    {[ "task_session_id" := JStr next_task_session_id ]}
                    "RUNNING" in
                (Respond (set_cookie "task_session_id" next_task_session_id
                            resp), w)
            end
        end
    end
  end end.

(** The part and the order number that [get_current_task] computes for
    the page (lines 172-177). *)
Definition get_current_task_part (study_session : StudySession.t)
  : string * Z :=
  let task_part :=
    if StudySession.num_tasks_completed study_session <? len TASK_BLOCK_I
    then "I" else "II" in
  let order_number := StudySession.num_tasks_completed study_session + 1 in
  (task_part, order_number).

(** *** Registration *)

Section Registration.
(** [str.lower], of which nothing is assumed. *)
Variable lower : string -> string.

(** The primary key the database gives a new row. *)
Definition next_pk (users : list User.t) : Z :=
  1 + foldr Z.max 0 (User.pk <$> users).

(** [User.objects.filter(first_name=first_name, last_name=last_name)] *)
Definition User_objects_filter (first_name last_name : string)
    (users : list User.t) : list User.t :=
  filter (fun u => bool_decide (User.first_name u = first_name
                               /\ User.last_name u = last_name)) users.

(** [register_user(request)], on the parameters of the request and the
    table of users. *)
Definition register_user (GET : gmap string string) (users : list User.t)
  : outcome http_response * list User.t :=
  match GET !! "first_name" with
  | None => (KeyError "first_name", users)
  | Some first_name =>
  match GET !! "last_name" with
  | None => (KeyError "last_name", users)
  | Some last_name =>
      match User_objects_filter first_name last_name users with
      | _ :: _ =>
          (Respond (json_response {[ "access_code" := JStr "USER_EXISTS" ]}
                      "SUCCESS"), users)
      | [] =>
          (* make access code for user *)
          let access_code := lower first_name +:+ "-" +:+ lower last_name in
          let user := User.mk (next_pk users) access_code first_name
                        last_name "group1" in
          (Respond (json_response {[ "access_code" := JStr access_code ]}
                      "SUCCESS"), users ++ [user])
      end
  end end.

(** [retrieve_access_code(request)] *)
Definition retrieve_access_code (GET : gmap string string)
    (users : list User.t) : outcome http_response :=
  match GET !! "first_name" with
  | None => KeyError "first_name"
  | Some first_name =>
  match GET !! "last_name" with
  | None => KeyError "last_name"
  | Some last_name =>
      match User_objects_filter first_name last_name users with
      | [user] =>
          Respond (mk_http_response
                     {[ "access_code" := JStr (User.access_code user) ]} [])
      | [] =>
          (* except ObjectDoesNotExist *)
          Respond (mk_http_response
                     {[ "access_code" := JStr "USER_DOES_NOT_EXIST" ]} [])
      | _ :: _ :: _ => Uncaught MultipleObjectsReturned
      end
  end end.
End Registration.

(** The identifier that [user_login] gives a new study session (lines
    414-415), [count] being the number of study sessions of the user. *)
Definition new_study_session_id (access_code : string) (count : Z) : string :=
  access_code +:+ "-" +:+ "study_session" +:+ "-" +:+ pretty (count + 1).

End views.

(** ** Notions of the specification *)

(** [remainingBlockLength(g)] of section 8: the length of the block that
    is not scheduled first for the group of the session. *)
Definition remaining_block_length (s : StudySession.t) : Z :=
  if String.eqb (StudySession.task_block_order s) "0"
  then len TASK_BLOCK_II
  else len TASK_BLOCK_I.

(** The scored task ids, in both blocks. *)
Definition scored_task_ids : list Z := TASK_BLOCK_I ++ TASK_BLOCK_II.

(** ** Sample data *)

Definition ada : User.t := User.mk 1 "ada-lovelace" "Ada" "Lovelace" "group1".
Definition grace : User.t := User.mk 2 "grace-hopper" "Grace" "Hopper" "group3".

(** A study session with the declared defaults for the fields that are
    not given. *)
Definition sample_session (user : User.t) (session_id : string)
    (creation_time : Z) (status : string) (num_tasks_completed : Z)
    (current_task_session_id : string) : StudySession.t :=
  StudySession.mk user session_id creation_time StudySession.default_end_time
    StudySession.default_total_num_training_tasks
    StudySession.default_total_num_tasks
    current_task_session_id num_tasks_completed false false false status None.

Definition sample_task (task_id : Z) (type : string) : Task.t :=
  Task.mk task_id type "" "" "{}" "{}" "" 300.

Definition empty_world : world :=
  mk_world 1478000000 ∅ ∅ 32768 ∅ [] [] ∅ ∅.

(** The task table of the study: one task per scheduled id. *)
Definition study_world : world :=
  mk_world 1478000000 ∅ ∅ 32768 ∅
    ((fun id => sample_task id "stdout")
       <$> (TASK_TRAINING ++ TASK_BLOCK_I ++ TASK_BLOCK_II)%list)
    [] ∅ ∅.

(** A participant in the middle of the first scored task: the study
    session points at a running task session whose sandbox is live. *)
Definition ada_session : StudySession.t :=
  sample_session ada "ada-lovelace-study_session-1" 1477990000 "running" 0
    "ada-lovelace-study_session-1-task-1".

Definition ada_container : Container.t :=
  Container.mk "c0ffee" "ada-lovelace-study_session-1-task-1" 32768.

Definition ada_task_session : TaskSession.t :=
  TaskSession.mk "ada-lovelace-study_session-1" "I"
    "ada-lovelace-study_session-1-task-1" (Some ada_container) false
    (sample_task 5 "stdout") 1477990100 TaskSession.default_end_time "running".

Definition ada_world : world :=
  mk_world 1478000000
    {[ "c0ffee" := mk_docker_container "ada-lovelace-study_session-1-task-1" 32768 ]}
    {[ "c0ffee" ]} 32769
    {[ "ada-lovelace-study_session-1-task-1" ]}
    (Task_objects study_world) [ada_container]
    {[ "ada-lovelace-study_session-1" := ada_session ]}
    {[ "ada-lovelace-study_session-1-task-1" := ada_task_session ]}.

(** A task session object that has no container: the one of the
    participant after [destroy_container], and the world it leaves. *)
Definition unbound_task_session : TaskSession.t :=
  (TaskSession.destroy_container ada_task_session ada_world).1.2.

Definition unbound_world : world :=
  (TaskSession.destroy_container ada_task_session ada_world).2.

(** A study session in training that has seen one task, of type 'stdout'. *)
Definition second_training_session : StudySession.t :=
  StudySession.set_standard_output_seen true
    (sample_session ada "ada-lovelace-study_session-1" 1477990000 "training" 1
       "ada-lovelace-study_session-1-training-task-2").

(** Its second training task, the first of type 'file_search'. *)
Definition second_training_task_session : TaskSession.t :=
  TaskSession.mk "ada-lovelace-study_session-1" "O"
    "ada-lovelace-study_session-1-training-task-2"
    (Some (Container.mk "decaf"
             "ada-lovelace-study_session-1-training-task-2" 32769))
    true (sample_task 22 "file_search") 1477990200
    TaskSession.default_end_time "running".

(** Two worlds that differ in the table of study sessions at most, where
    no study session has been deleted. *)
Definition up_to_study_sessions (w w' : world) : Prop :=
  clock w' = clock w
  /\ docker w' = docker w
  /\ docker_ids w' = docker_ids w
  /\ docker_next_port w' = docker_next_port w
  /\ filesystems w' = filesystems w
  /\ Task_objects w' = Task_objects w
  /\ Container_objects w' = Container_objects w
  /\ TaskSession_objects w' = TaskSession_objects w
  /\ (forall k, is_Some (StudySession_objects w !! k) ->
                is_Some (StudySession_objects w' !! k)).

(** The live sandboxes of a task session: the live containers whose home
    directory is the virtual filesystem named after the task session. *)
Definition live_sandbox (self : TaskSession.t) (w : world) (id : string)
  : Prop :=
  exists dc, docker w !! id = Some dc /\ mount dc = TaskSession.session_id self.

(** The host is in order for a task session when the daemon has issued the
    identifier of every live container and the only live sandbox of the
    task session, if any, is the container bound to it. *)
Definition host_in_order (self : TaskSession.t) (w : world) : Prop :=
  dom (docker w) ⊆ docker_ids w
  /\ (forall id, live_sandbox self w id ->
        exists c, TaskSession.container self = Some c
                  /\ Container.container_id c = id).

(** The world in which [create_new_container] provisions: the bound
    container, if any, has been destroyed. *)
Definition after_destroying_bound (self : TaskSession.t) (w : world) : world :=
  match TaskSession.container self with
  | Some c => Container.destroy c w
  | None => w
  end.

(** The three task types of the data model, the seen-flag of a type on a
    study session and the names of the two tours of a type. *)
Definition task_types : list string :=
  ["stdout"; "file_search"; "filesystem_change"].

Definition seen (ty : string) (s : StudySession.t) : bool :=
  if String.eqb ty "stdout" then StudySession.standard_output_seen s
  else if String.eqb ty "file_search" then StudySession.file_search_seen s
  else if String.eqb ty "filesystem_change"
  then StudySession.filesystem_change_seen s
  else false.

Definition tour_of (ty : string) : string :=
  if String.eqb ty "stdout" then "standard_output" else ty.

Definition init_tour (ty : string) : string := "init_" +:+ tour_of ty.
Definition first_tour (ty : string) : string := "first_" +:+ tour_of ty.

(** What the code does to a study session object, one method or view at a
    time. *)
Inductive StudySession_step : StudySession.t -> StudySession.t -> Prop :=
| step_close reason s (w : world) :
    StudySession_step s (StudySession.close reason s w).1
| step_inc_num_tasks_completed s (w : world) :
    StudySession_step s (StudySession.inc_num_tasks_completed s w).1
| step_update_current_task_session_id s (w : world) :
    StudySession_step s (StudySession.update_current_task_session_id s w).1.2
| step_update_filesystem_change_seen s (w : world) :
    StudySession_step s (StudySession.update_filesystem_change_seen s w).1
| step_update_file_search_seen s (w : world) :
    StudySession_step s (StudySession.update_file_search_seen s w).1
| step_update_standard_output_seen s (w : world) :
    StudySession_step s (StudySession.update_standard_output_seen s w).1
| step_close_study_session reason s (w : world) :
    StudySession_step s (views.close_study_session s reason w).1.2
| step_save s :
    StudySession_step s (StudySession.row s).

(** Resumption: two stale running study sessions of one participant.  The
    earlier one points at a task session that has been passed, the later one
    at a running task session. *)
Definition earlier_session : StudySession.t :=
  sample_session ada "ada-lovelace-study_session-1" 1477900000 "running" 2
    "ada-lovelace-study_session-1-task-3".

Definition later_session : StudySession.t :=
  sample_session ada "ada-lovelace-study_session-2" 1477990000 "running" 0
    "ada-lovelace-study_session-2-task-1".

Definition sample_container (session_id : string) : Container.t :=
  Container.mk ("sandbox-of-" +:+ session_id) session_id 32768.

Definition sample_task_session (study_session session_id status : string)
  : TaskSession.t :=
  TaskSession.mk study_session "I" session_id
    (Some (sample_container session_id)) false
    (sample_task 5 "stdout") 1477990100 TaskSession.default_end_time status.

Definition stale_world : world :=
  mk_world 1478000000 ∅ ∅ 32768 ∅ (Task_objects study_world)
    [sample_container "ada-lovelace-study_session-1-task-3";
     sample_container "ada-lovelace-study_session-2-task-1"]
    {[ "ada-lovelace-study_session-1" := earlier_session;
       "ada-lovelace-study_session-2" := later_session ]}
    {[ "ada-lovelace-study_session-1-task-3" :=
         sample_task_session "ada-lovelace-study_session-1"
           "ada-lovelace-study_session-1-task-3" "passed";
       "ada-lovelace-study_session-2-task-1" :=
         sample_task_session "ada-lovelace-study_session-2"
           "ada-lovelace-study_session-2-task-1" "running" ]}.

(** The same, with the task session of the earlier study session missing
    from the database. *)
Definition corrupted_world : world :=
  with_TaskSession_objects
    {[ "ada-lovelace-study_session-2-task-1" :=
         sample_task_session "ada-lovelace-study_session-2"
           "ada-lovelace-study_session-2-task-1" "running" ]}
    stale_world.

(** ** models.py: the treatment tables *)

Definition treatment_names : gmap string string :=
  {[ "A" := "Tellina or Google Search"; "B" := "Google Search" ]}.

(* key: treatment order + study session stage; value: treatment *)
Definition treatment_assignments : gmap string string :=
  {[ "0I" := "A"; "0II" := "B"; "1I" := "B"; "1II" := "A" ]}.

(** [n] calls of [inc_num_tasks_completed] in a row. *)
Fixpoint inc_num_tasks_completed_times (n : nat) (s : StudySession.t)
    (w : world) : StudySession.t * world :=
  match n with
  | O => (s, w)
  | S n =>
      let '(s, w) := inc_num_tasks_completed_times n s w in
      StudySession.inc_num_tasks_completed s w
  end.

(** * Properties *)

(** ** The scheduler's tables *)

Lemma pick_task_id_block_I (n : nat) (id : Z) :
  TASK_BLOCK_I !! n = Some id -> views.pick_task_id (Z.of_nat n) = Ok id.
Proof.
  intros H. pose proof (lookup_lt_Some _ _ _ H) as Hlt.
  do 9 (destruct n as [|n]; [by inversion H|]).
  cbn in Hlt. lia.
Qed.

Lemma pick_task_id_block_II (n : nat) (id : Z) :
  TASK_BLOCK_II !! n = Some id ->
  views.pick_task_id (len TASK_BLOCK_I + Z.of_nat n) = Ok id.
Proof.
  intros H. pose proof (lookup_lt_Some _ _ _ H) as Hlt.
  do 9 (destruct n as [|n]; [by inversion H|]).
  cbn in Hlt. lia.
Qed.

Lemma pick_task_id_scored (n : Z) :
  0 <= n < StudySession.default_total_num_tasks ->
  exists id, views.pick_task_id n = Ok id /\ scored_task_ids !! Z.to_nat n = Some id.
Proof.
  intros [H0 H1]. change StudySession.default_total_num_tasks with 18 in H1.
  assert (Hn : n = Z.of_nat (Z.to_nat n)) by lia.
  revert Hn. generalize (Z.to_nat n) as k. intros k ->.
  do 18 (destruct k as [|k]; [eexists; split; reflexivity|]).
  lia.
Qed.

(** C8: for every group the switch point plus the length of the remaining
    block is the total number of scored tasks; the two blocks are disjoint,
    without repetition, and the scheduler serves every scored task id at
    exactly one position below the total. *)
Theorem switch_point_blocks_partition (s : StudySession.t) :
  StudySession.switch_point s + remaining_block_length s
    = StudySession.default_total_num_tasks
  /\ (forall id : Z, id ∈ TASK_BLOCK_I -> id ∉ TASK_BLOCK_II)
  /\ NoDup (TASK_BLOCK_I ++ TASK_BLOCK_II)
  /\ len (TASK_BLOCK_I ++ TASK_BLOCK_II) = StudySession.default_total_num_tasks
  /\ (forall id : Z, id ∈ (TASK_BLOCK_I ++ TASK_BLOCK_II)%list <->
        exists n, 0 <= n < StudySession.default_total_num_tasks
                  /\ views.pick_task_id n = Ok id)
  /\ (forall n m id,
        0 <= n < StudySession.default_total_num_tasks ->
        0 <= m < StudySession.default_total_num_tasks ->
        views.pick_task_id n = Ok id -> views.pick_task_id m = Ok id ->
        n = m).
Proof.
  assert (Hnd : NoDup (TASK_BLOCK_I ++ TASK_BLOCK_II)).
  { apply (bool_decide_unpack _). vm_compute. exact I. }
  split; [|split; [|split; [|split; [|split]]]].
  - unfold StudySession.switch_point, remaining_block_length,
      StudySession.task_block_order.
    destruct (str_in_list _ _); reflexivity.
  - intros id H1 H2. apply NoDup_app in Hnd as (_ & Hd & _). exact (Hd id H1 H2).
  - exact Hnd.
  - reflexivity.
  - intros id. split.
    + intros H. apply elem_of_app in H as [H|H];
        apply list_elem_of_lookup in H as [k Hk].
      * exists (Z.of_nat k). split; [|by apply pick_task_id_block_I].
        apply lookup_lt_Some in Hk. cbn in Hk.
        change StudySession.default_total_num_tasks with 18. lia.
      * exists (len TASK_BLOCK_I + Z.of_nat k).
        split; [|by apply pick_task_id_block_II].
        apply lookup_lt_Some in Hk. cbn in Hk.
        change StudySession.default_total_num_tasks with 18.
        change (len TASK_BLOCK_I) with 9. lia.
    + intros (n & Hn & Hpick).
      destruct (pick_task_id_scored n Hn) as (id' & Hp & Hl).
      rewrite Hp in Hpick. injection Hpick as ->.
      apply list_elem_of_lookup. eauto.
  - intros n m id Hn Hm Hpn Hpm.
    destruct (pick_task_id_scored n Hn) as (idn & Hp1 & Hl1).
    destruct (pick_task_id_scored m Hm) as (idm & Hp2 & Hl2).
    rewrite Hp1 in Hpn. rewrite Hp2 in Hpm.
    injection Hpn as ->. injection Hpm as ->.
    pose proof (NoDup_lookup _ _ _ _ Hnd Hl1 Hl2). lia.
Qed.

(** ** The stage of a study session *)


(** With a count above the total the assertion fails, whatever the
    status. *)
Lemma stage_above_total (s : StudySession.t) :
  StudySession.total_num_tasks s < StudySession.num_tasks_completed s ->
  StudySession.stage s = Raise AssertionError.
Proof.
  intros H. unfold StudySession.stage. cbn [WEBSITE_DEVELOP negb andb].
  apply Z.leb_gt in H. by rewrite H.
Qed.




(** ** Advancing the completed-task counter *)

Lemma inc_num_tasks_completed_saved (s : StudySession.t) (w : world) :
  StudySession_objects (StudySession.inc_num_tasks_completed s w).2
    !! StudySession.session_id s
  = Some (StudySession.row (StudySession.inc_num_tasks_completed s w).1).
Proof.
  unfold StudySession.inc_num_tasks_completed. cbn.
  destruct (_ && _); cbn; apply lookup_insert_eq.
Qed.

(** C4, as stated, fails: a session in status 'training' whose counter
    already equals the number of training tasks is left with a counter
    above it, still in status 'training'. *)
Lemma inc_num_tasks_completed_overshoots :
  let s := sample_session ada "ada-lovelace-study_session-1" 0 "training" 2 "" in
  let s' := (StudySession.inc_num_tasks_completed s empty_world).1 in
  StudySession.status s = "training"
  /\ StudySession.num_tasks_completed s' = 3
  /\ StudySession.total_num_training_tasks s' = 2
  /\ ~ (StudySession.num_tasks_completed s'
        <= StudySession.total_num_training_tasks s')
  /\ StudySession.status s' = "training".
Proof. vm_compute. repeat split; congruence. Qed.

(** C4, amended: for a session in status 'training' whose counter is below
    the number of training tasks, the increment leaves the counter at most
    that number; when it reaches the number the counter is reset to zero and
    the status becomes 'running'; otherwise only the counter changes and the
    status stays 'training'.  The session is saved in both cases.  (The
    counter is a PositiveIntegerField, hence not negative.) *)
Theorem inc_num_tasks_completed_training (s : StudySession.t) (w : world) :
  StudySession.status s = "training" ->
  0 <= StudySession.num_tasks_completed s ->
  StudySession.num_tasks_completed s < StudySession.total_num_training_tasks s ->
  let s' := (StudySession.inc_num_tasks_completed s w).1 in
  let w' := (StudySession.inc_num_tasks_completed s w).2 in
  StudySession.num_tasks_completed s' <= StudySession.total_num_training_tasks s'
  /\ (StudySession.num_tasks_completed s + 1
        = StudySession.total_num_training_tasks s ->
      s' = StudySession.set_status "running"
             (StudySession.set_num_tasks_completed 0 s))
  /\ (StudySession.num_tasks_completed s + 1
        <> StudySession.total_num_training_tasks s ->
      s' = StudySession.set_num_tasks_completed
             (StudySession.num_tasks_completed s + 1) s
      /\ StudySession.status s' = "training")
  /\ StudySession_objects w' !! StudySession.session_id s
     = Some (StudySession.row s').
Proof.
  intros Hst Hnn Hlt s' w'.
  split; [|split; [|split]].
  - subst s'. unfold StudySession.inc_num_tasks_completed. cbn.
    rewrite Hst. cbn.
    destruct (Z.eqb_spec (StudySession.num_tasks_completed s + 1)
                (StudySession.total_num_training_tasks s)) as [E|E]; cbn; lia.
  - intros E. subst s'. unfold StudySession.inc_num_tasks_completed. cbn.
    rewrite Hst. cbn. apply Z.eqb_eq in E. rewrite E. by destruct s.
  - intros E. subst s'. unfold StudySession.inc_num_tasks_completed. cbn.
    rewrite Hst. cbn. apply Z.eqb_neq in E. rewrite E. cbn. done.
  - apply inc_num_tasks_completed_saved.
Qed.

Lemma inc_num_tasks_completed_training_witness :
  let s := sample_session ada "ada-lovelace-study_session-1" 0 "training" 1 "" in
  (StudySession.inc_num_tasks_completed s empty_world).1
  = StudySession.set_status "running" (StudySession.set_num_tasks_completed 0 s).
Proof.
  intros s.
  refine (proj1 (proj2
    (inc_num_tasks_completed_training s empty_world _ _ _)) _).
  - reflexivity.
  - vm_compute. discriminate.
  - vm_compute. reflexivity.
  - vm_compute. reflexivity.
Defined.

(** ** The scheduler *)

Lemma next_task_depends_on_count_only (s1 s2 : StudySession.t) (w : world) :
  StudySession.num_tasks_completed s1 = StudySession.num_tasks_completed s2 ->
  views.next_task s1 w = views.next_task s2 w.
Proof. unfold views.next_task. by intros ->. Qed.

(** C2 fails on the code: a participant of group1 and one of group3 have
    opposite block orders (and group3 is documented to start with task
    block 2, whose first id is 8), yet with no task completed both are
    served task 5, the head of block I: [pick_task] takes the count only. *)
Theorem first_scored_task_ignores_group :
  let s1 := sample_session ada "ada-lovelace-study_session-1" 0 "running" 0 "" in
  let s3 := sample_session grace "grace-hopper-study_session-1" 0 "running" 0 "" in
  StudySession.task_block_order s1 = "0"
  /\ StudySession.task_block_order s3 = "1"
  /\ views.next_task s1 study_world = Ok (sample_task 5 "stdout")
  /\ views.next_task s3 study_world = Ok (sample_task 5 "stdout")
  /\ head TASK_BLOCK_I = Some 5
  /\ head TASK_BLOCK_II = Some 8.
Proof. vm_compute. repeat split. Qed.

(** ** The completion check *)

Lemma startswith_spec (p s : string) :
  startswith p s = true <-> exists r, s = p +:+ r.
Proof.
  revert s. induction p as [|a p IH]; intros s; cbn.
  - split; eauto.
  - destruct s as [|b s].
    + split; [discriminate | by intros [r ?]].
    + rewrite andb_true_iff, Ascii.eqb_eq, IH. split.
      * intros [-> [r ->]]. eauto.
      * intros [r Hr]. injection Hr as -> ->. eauto.
Qed.

(** Python's [p in s] is the substring relation. *)
Lemma str_in_spec (p s : string) :
  str_in p s = true <-> exists l r, s = l +:+ p +:+ r.
Proof.
  induction s as [|c s IH]; cbn; rewrite orb_true_iff, startswith_spec.
  - split.
    + intros [[r Hr] | ?]; [|discriminate]. by exists "", r.
    + intros (l & r & H). left. destruct l; [|discriminate]. eauto.
  - rewrite IH. split.
    + intros [[r Hr] | (l & r & ->)].
      * by exists "", r.
      * by exists (String c l), r.
    + intros (l & r & H). destruct l as [|c' l].
      * left. eauto.
      * right. injection H as -> ->. eauto.
Qed.

Lemma task_completed_stdout (task : Task.t) (lines : list string)
    (tag : bool) :
  Task.type task = "stdout" ->
  views.task_completed task lines tag = Raise AttributeError.
Proof. unfold views.task_completed. by intros ->. Qed.

Lemma task_completed_filesystem (task : Task.t) (lines : list string)
    (tag : bool) :
  Task.type task = "filesearch" \/ Task.type task = "filesystem" ->
  views.task_completed task lines tag = Ok (negb tag).
Proof.
  unfold views.task_completed. intros [-> | ->]; by destruct tag.
Qed.

Lemma task_completed_unrecognized (task : Task.t) (lines : list string)
    (tag : bool) :
  Task.type task ∉ ["stdout"; "filesearch"; "filesystem"] ->
  views.task_completed task lines tag = Raise AttributeError.
Proof.
  intros H. unfold views.task_completed.
  destruct (String.eqb_spec (Task.type task) "stdout") as [E|_];
    [rewrite E in H; set_solver|].
  destruct (String.eqb_spec (Task.type task) "filesearch") as [E|_];
    [rewrite E in H; set_solver|].
  destruct (String.eqb_spec (Task.type task) "filesystem") as [E|_];
    [rewrite E in H; set_solver|].
  reflexivity.
Qed.

(** C1 fails on the code: the check compares the type with 'filesearch' and
    'filesystem', so for a task of one of the declared types 'file_search'
    and 'filesystem_change' it raises AttributeError whatever the filesystem
    diff reports, also when the diff reports no differences.  For a task of
    type 'stdout' it raises AttributeError as well, at [task.goal], whatever
    the output. *)
Theorem task_completed_declared_filesystem_types (task_id : Z)
    (description file_attributes initial_filesystem goal_filesystem
       expected : string) (duration : Z) (stdout : string) (tag : bool) :
  let task type :=
    Task.mk task_id type description file_attributes initial_filesystem
      goal_filesystem expected duration in
  views.task_completed (task "file_search") (split_lines stdout) tag
    = Raise AttributeError
  /\ views.task_completed (task "filesystem_change") (split_lines stdout) tag
    = Raise AttributeError
  /\ views.on_command_execution_status (task "file_search") stdout false
    = Raise AttributeError
  /\ views.on_command_execution_status (task "filesystem_change") stdout false
    = Raise AttributeError
  /\ views.task_completed (task "stdout") (split_lines stdout) tag
    = Raise AttributeError.
Proof. repeat split. Qed.

(** ** Closing a study session *)

(** C3 fails on the code: closing a running study session sets the status
    and clears the pointer, but the sandbox of its current task session
    stays live, container and filesystem; and the close time is put on the
    attribute [close_time], which is no column, so that the saved row keeps
    the default end time. *)
Theorem StudySession_close_leaves_sandbox :
  let s' := (StudySession.close "finished" ada_session ada_world).1 in
  let w' := (StudySession.close "finished" ada_session ada_world).2 in
  StudySession.status ada_session = "running"
  /\ TaskSession_objects ada_world
       !! StudySession.current_task_session_id ada_session
     = Some ada_task_session
  /\ TaskSession.container ada_task_session = Some ada_container
  /\ StudySession.status s' = "finished"
  /\ StudySession.close_time s' = Some (clock ada_world)
  /\ docker w' !! Container.container_id ada_container
     = Some (mk_docker_container (Container.filesystem_name ada_container)
               (Container.port ada_container))
  /\ docker w' = docker ada_world
  /\ filesystems w' = filesystems ada_world
  /\ StudySession.end_time
       <$> StudySession_objects w' !! StudySession.session_id ada_session
     = Some StudySession.default_end_time
  /\ StudySession.close_time
       <$> StudySession_objects w' !! StudySession.session_id ada_session
     = Some None.
Proof. split_and!; vm_compute; reflexivity. Qed.

(** What [close] does: nothing unless the status is 'running' or 'paused';
    then it clears the pointer to the current task session, puts the close
    time on the object, sets the status to the reason and saves the
    session; the containers, the filesystems and the task sessions are left
    as they were. *)
Lemma StudySession_close_spec (reason : string) (s : StudySession.t)
    (w : world) :
  let s' := (StudySession.close reason s w).1 in
  let w' := (StudySession.close reason s w).2 in
  (StudySession.status s <> "running" -> StudySession.status s <> "paused" ->
   s' = s /\ w' = w)
  /\ (StudySession.status s = "running" \/ StudySession.status s = "paused" ->
      StudySession.current_task_session_id s' = ""
      /\ StudySession.close_time s' = Some (timezone_now w)
      /\ StudySession.status s' = reason
      /\ s' = StudySession.set_status reason
                (StudySession.set_close_time (timezone_now w)
                   (StudySession.set_current_task_session_id "" s))
      /\ StudySession_objects w'
         = <[StudySession.session_id s := StudySession.row s']>
             (StudySession_objects w)
      /\ docker w' = docker w
      /\ filesystems w' = filesystems w
      /\ Container_objects w' = Container_objects w
      /\ TaskSession_objects w' = TaskSession_objects w).
Proof.
  intros s' w'. subst s' w'. unfold StudySession.close. split.
  - intros H1 H2. apply String.eqb_neq in H1, H2. by rewrite H1, H2.
  - intros H.
    assert (E : String.eqb (StudySession.status s) "running"
                || String.eqb (StudySession.status s) "paused" = true).
    { apply orb_true_iff. rewrite !String.eqb_eq. exact H. }
    rewrite E. cbn. repeat split.
Qed.

Lemma StudySession_close_spec_witness :
  StudySession.status (StudySession.close "finished" ada_session ada_world).1
    = "finished"
  /\ docker (StudySession.close "finished" ada_session ada_world).2
     = docker ada_world.
Proof.
  pose proof (proj2 (StudySession_close_spec "finished" ada_session ada_world)
                (or_introl eq_refl)) as H.
  destruct H as (_ & _ & Hs & _ & _ & Hd & _). exact (conj Hs Hd).
Defined.

(** ** Closing a task session that has no container *)

Lemma up_to_study_sessions_refl (w : world) : up_to_study_sessions w w.
Proof. repeat split; auto. Qed.

Lemma up_to_study_sessions_trans (w1 w2 w3 : world) :
  up_to_study_sessions w1 w2 -> up_to_study_sessions w2 w3 ->
  up_to_study_sessions w1 w3.
Proof.
  intros (?&?&?&?&?&?&?&?&?) (?&?&?&?&?&?&?&?&?).
  repeat split; try congruence. auto.
Qed.

Lemma StudySession_save_up_to (s : StudySession.t) (w : world) :
  up_to_study_sessions w (StudySession.save s w).
Proof.
  repeat split; auto. intros k Hk. cbn.
  destruct (decide (StudySession.session_id s = k)) as [->|Hne].
  - rewrite lookup_insert_eq. eauto.
  - by rewrite lookup_insert_ne.
Qed.

Lemma update_seen_ok (ty : string) (seen : StudySession.t -> bool)
    (update : StudySession.t -> world -> StudySession.t * world)
    (self : TaskSession.t) (w : world) :
  (forall s w0, up_to_study_sessions w0 (update s w0).2) ->
  is_Some (StudySession_objects w !! TaskSession.study_session self) ->
  (TaskSession.update_seen ty seen update self w).1 = Ok tt
  /\ up_to_study_sessions w (TaskSession.update_seen ty seen update self w).2.
Proof.
  intros Hup [s Hs]. unfold TaskSession.update_seen, TaskSession.get_study_session.
  rewrite Hs. destruct (String.eqb _ ty); [destruct (negb (seen s))|]; cbn;
    auto using up_to_study_sessions_refl.
Qed.




(** ** Sandboxes: destruction and binding *)

Lemma Container_destroy_idempotent (c : Container.t) (w : world) :
  Container.destroy c (Container.destroy c w) = Container.destroy c w.
Proof.
  unfold Container.destroy, delete_filesystem, docker_rm, with_filesystems,
    with_docker. cbn.
  by rewrite delete_delete_eq, difference_twice_L.
Qed.

Lemma Container_destroy_not_live (c : Container.t) (w : world) :
  docker (Container.destroy c w) !! Container.container_id c = None.
Proof. cbn. apply lookup_delete_eq. Qed.

(** When the environment lets the provisioning through, [create_container]
    returns the row of the container that the daemon has made. *)
Lemma create_container_provisioned (name : string) (task : Task.t)
    (w : world) :
  create_container name task provisioned w
  = let w1 := (docker_create name (make_filesystem name w)).2 in
    let c := Container.mk (fresh (docker_ids w)) name (docker_next_port w) in
    (Ok c, with_Container_objects (Container_objects w ++ [c]) w1).
Proof. unfold create_container. cbn. by destruct (_ || _). Qed.

Lemma create_new_container_unfold (self : TaskSession.t) (c0 : Container.t)
    (w : world) :
  TaskSession.container self = Some c0 ->
  TaskSession.create_new_container provisioned self w
  = let w0 := Container.destroy c0 w in
    let name := TaskSession.session_id self in
    let c := Container.mk (fresh (docker_ids w0)) name (docker_next_port w0) in
    let w1 := with_Container_objects (Container_objects w0 ++ [c])
                (docker_create name (make_filesystem name w0)).2 in
    let self1 := TaskSession.set_container (Some c) self in
    (Ok tt, self1, TaskSession.save self1 w1).
Proof.
  intros Hc.
  unfold TaskSession.create_new_container, TaskSession.destroy_container.
  rewrite Hc. cbn -[create_container].
  by rewrite create_container_provisioned.
Qed.

Lemma after_destroying_bound_no_sandbox (self : TaskSession.t) (w : world) :
  host_in_order self w ->
  let w0 := after_destroying_bound self w in
  docker_ids w0 = docker_ids w
  /\ dom (docker w0) ⊆ docker_ids w
  /\ (forall id, ~ live_sandbox self w0 id)
  /\ (forall c, TaskSession.container self = Some c ->
        docker w0 !! Container.container_id c = None).
Proof.
  intros [Hdom Hstray]. unfold after_destroying_bound.
  destruct (TaskSession.container self) as [c0|] eqn:Ec; cbn.
  - split; [done|]. split; [|split].
    + rewrite dom_delete. set_solver.
    + intros id (dc & Hl & Hm). cbn in Hl.
      apply lookup_delete_Some in Hl as [Hne Hl].
      destruct (Hstray id) as (c & Hc & Hid); [by exists dc|].
      congruence.
    + intros c Hc. injection Hc as <-. apply lookup_delete_eq.
  - split; [done|]. split; [done|]. split; [|done].
    intros id Hl. destruct (Hstray id Hl) as (c & Hc & _). discriminate.
Qed.

(** One call of [create_new_container] on a task session that has a
    container, on a host in order, when the provisioning goes through: it
    succeeds, binds a container with a fresh identifier, which is then the
    only live sandbox of the task session, saves the task session and leaves
    the host in order. *)
Lemma create_new_container_spec (self : TaskSession.t) (c0 : Container.t)
    (w : world) :
  TaskSession.container self = Some c0 ->
  host_in_order self w ->
  exists c self1 w1,
    TaskSession.create_new_container provisioned self w = (Ok tt, self1, w1)
    /\ self1 = TaskSession.set_container (Some c) self
    /\ Container.container_id c = fresh (docker_ids w)
    /\ Container.filesystem_name c = TaskSession.session_id self
    /\ (forall id, live_sandbox self1 w1 id <-> id = Container.container_id c)
    /\ (Container.container_id c0 ∈ docker_ids w ->
        docker w1 !! Container.container_id c0 = None)
    /\ Container.container_id c ∈ docker_ids w1
    /\ TaskSession_objects w1 !! TaskSession.session_id self = Some self1
    /\ host_in_order self1 w1.
Proof.
  intros Hc0 Hord.
  destruct (after_destroying_bound_no_sandbox self w Hord)
    as (Hids & Hdom & Hnone & Hgone).
  specialize (Hgone c0 Hc0).
  unfold after_destroying_bound in *. rewrite Hc0 in *.
  rewrite (create_new_container_unfold self c0 w Hc0). cbn zeta.
  set (w0 := Container.destroy c0 w) in *.
  set (id1 := fresh (docker_ids w0)).
  assert (Hfresh : id1 ∉ docker_ids w) by (rewrite <- Hids; apply is_fresh).
  set (c := Container.mk id1 (TaskSession.session_id self) (docker_next_port w0)).
  assert (Hlive : forall id,
             live_sandbox (TaskSession.set_container (Some c) self)
               (TaskSession.save (TaskSession.set_container (Some c) self)
                  (with_Container_objects (Container_objects w0 ++ [c])
                     (docker_create (TaskSession.session_id self)
                        (make_filesystem (TaskSession.session_id self) w0)).2))
               id
             <-> id = id1).
  { intros id. unfold live_sandbox. cbn. fold id1. split.
    - intros (dc & Hl & Hm).
      destruct (decide (id1 = id)) as [->|Hne]; [done|].
      rewrite lookup_insert_ne in Hl by done.
      destruct (Hnone id). by exists dc.
    - intros ->. eexists. rewrite lookup_insert_eq. done. }
  exists c. eexists _, _. split; [reflexivity|].
  split; [reflexivity|]. split; [unfold c, id1; by rewrite Hids|].
  split; [reflexivity|]. split; [exact Hlive|].
  split; [|split; [|split; [|split]]].
  - intros Hin.
    assert (Hne : id1 <> Container.container_id c0)
      by (intros E; apply Hfresh; by rewrite E).
    cbn. rewrite lookup_insert_ne by exact Hne. exact Hgone.
  - cbn. fold id1. set_solver.
  - cbn. apply lookup_insert_eq.
  - cbn. rewrite dom_insert. set_solver.
  - intros id Hl. apply Hlive in Hl as ->. eexists. split; reflexivity.
Qed.

(** [destroy_container] and [close] leave the host in order as well: after
    them the task session has no live sandbox. *)
Lemma destroy_container_in_order (self : TaskSession.t) (w : world) :
  host_in_order self w ->
  let '(_, self', w') := TaskSession.destroy_container self w in
  host_in_order self' w' /\ forall id, ~ live_sandbox self' w' id.
Proof.
  intros Hord.
  destruct (after_destroying_bound_no_sandbox self w Hord)
    as (Hids & Hdom & Hnone & _).
  unfold TaskSession.destroy_container, after_destroying_bound in *.
  destruct (TaskSession.container self) as [c|] eqn:Ec.
  - assert (Hno : forall id,
               ~ live_sandbox (TaskSession.set_container None self)
                   (Container.destroy c w) id) by exact Hnone.
    split; [|exact Hno]. split.
    + by rewrite Hids.
    + intros id Hl. by destruct (Hno id).
  - split; [exact Hord | exact Hnone].
Qed.

Lemma close_in_order (reason : string) (self : TaskSession.t) (w : world) :
  host_in_order self w ->
  is_Some (StudySession_objects w !! TaskSession.study_session self) ->
  forall c, TaskSession.container self = Some c ->
  let '(r, self', w') := TaskSession.close reason self w in
  r = Ok tt
  /\ TaskSession.status self' = reason
  /\ TaskSession_objects w' !! TaskSession.session_id self = Some self'
  /\ forall id, ~ live_sandbox self' w' id.
Proof.
  intros [Hdom Hstray] Hs c Hc. unfold TaskSession.close.
  destruct (update_seen_ok "stdout" StudySession.standard_output_seen
              StudySession.update_standard_output_seen self w) as [E1 U1];
    [intros; apply StudySession_save_up_to | exact Hs |].
  destruct (TaskSession.update_seen "stdout" _ _ self w) as [r1 w1].
  cbn in E1, U1. subst r1.
  assert (Hs1 : is_Some (StudySession_objects w1 !! TaskSession.study_session self)).
  { destruct U1 as (_&_&_&_&_&_&_&_&H). auto. }
  destruct (update_seen_ok "file_search" StudySession.file_search_seen
              StudySession.update_file_search_seen self w1) as [E2 U2];
    [intros; apply StudySession_save_up_to | exact Hs1 |].
  destruct (TaskSession.update_seen "file_search" _ _ self w1) as [r2 w2].
  cbn in E2, U2. subst r2.
  assert (Hs2 : is_Some (StudySession_objects w2 !! TaskSession.study_session self)).
  { destruct U2 as (_&_&_&_&_&_&_&_&H). auto. }
  destruct (update_seen_ok "filesystem_change" StudySession.filesystem_change_seen
              StudySession.update_filesystem_change_seen self w2) as [E3 U3];
    [intros; apply StudySession_save_up_to | exact Hs2 |].
  destruct (TaskSession.update_seen "filesystem_change" _ _ self w2) as [r3 w3].
  cbn in E3, U3. subst r3.
  pose proof (up_to_study_sessions_trans _ _ _
                (up_to_study_sessions_trans _ _ _ U1 U2) U3)
    as (_ & Hd & _ & _ & _ & _ & _ & _ & _).
  cbn. rewrite Hc. cbn.
  split; [done|]. split; [done|]. split; [apply lookup_insert_eq|].
  intros id (dc & Hl & Hm). cbn in Hl, Hm. rewrite Hd in Hl.
  apply lookup_delete_Some in Hl as [Hne Hl].
  destruct (Hstray id) as (c' & Hc' & Hid); [by exists dc|].
  congruence.
Qed.

(** Two calls of [create_new_container] in a row, on a task session that
    has a container, on a host in order, when both provisionings go
    through: both calls succeed and leave exactly one live sandbox of the
    task session, the container bound by the second call; the container of
    the first call has been destroyed. *)
Lemma create_new_container_twice (self : TaskSession.t) (c0 : Container.t)
    (w : world) :
  TaskSession.container self = Some c0 ->
  host_in_order self w ->
  exists c1 self1 w1 c2 self2 w2,
    TaskSession.create_new_container provisioned self w = (Ok tt, self1, w1)
    /\ TaskSession.create_new_container provisioned self1 w1
       = (Ok tt, self2, w2)
    /\ TaskSession.container self1 = Some c1
    /\ TaskSession.container self2 = Some c2
    /\ live_sandbox self w1 (Container.container_id c1)
    /\ docker w2 !! Container.container_id c1 = None
    /\ (forall id, live_sandbox self w2 id <-> id = Container.container_id c2)
    /\ TaskSession_objects w2 !! TaskSession.session_id self = Some self2.
Proof.
  intros Hc0 Hord.
  destruct (create_new_container_spec self c0 w Hc0 Hord)
    as (c1 & self1 & w1 & E1 & Hs1 & Hid1 & Hfs1 & Hlive1 & _ & Hin1 & _ & Hord1).
  assert (Hc1 : TaskSession.container self1 = Some c1) by (by subst self1).
  destruct (create_new_container_spec self1 c1 w1 Hc1 Hord1)
    as (c2 & self2 & w2 & E2 & Hs2 & Hid2 & Hfs2 & Hlive2 & Hgone2 & _ & Hsaved2 & _).
  exists c1, self1, w1, c2, self2, w2.
  split; [exact E1|]. split; [exact E2|]. split; [exact Hc1|].
  split; [by subst self2|].
  split.
  { pose proof (proj2 (Hlive1 (Container.container_id c1)) eq_refl) as Hl.
    rewrite Hs1 in Hl. exact Hl. }
  split; [by apply Hgone2|].
  split; [|by subst self1].
  intros id. rewrite <- Hlive2. unfold live_sandbox. by subst self2 self1.
Qed.

(** C7 fails on the code: on a task session object that has no container,
    [create_new_container] binds no sandbox: the test [if self.container:]
    written for that case raises, before anything is destroyed or
    provisioned, whatever the environment would do to the provisioning.
    Destroying a container twice does leave the world as destroying it
    once. *)
Theorem create_new_container_unbound_raises (fate : provisioning)
    (self : TaskSession.t) (w : world) :
  TaskSession.container self = None ->
  TaskSession.create_new_container fate self w
  = (Raise AttributeError, self, w)
  /\ (forall (c : Container.t) (w0 : world),
        Container.destroy c (Container.destroy c w0) = Container.destroy c w0).
Proof.
  intros Hc. split; [|apply Container_destroy_idempotent].
  unfold TaskSession.create_new_container. by rewrite Hc.
Qed.

Lemma create_new_container_unbound_raises_witness :
  TaskSession.destroy_container ada_task_session ada_world
  = (Ok tt, unbound_task_session, unbound_world)
  /\ TaskSession.container unbound_task_session = None
  /\ TaskSession.create_new_container provisioned unbound_task_session
       unbound_world
     = (Raise AttributeError, unbound_task_session, unbound_world)
  /\ docker unbound_world = ∅.
Proof.
  split; [reflexivity|]. split; [reflexivity|].
  split; [|vm_compute; reflexivity].
  exact (proj1 (create_new_container_unbound_raises provisioned
                  unbound_task_session unbound_world eq_refl)).
Defined.

(** ** The page tour *)

Lemma seen_step (ty : string) (s s' : StudySession.t) :
  StudySession_step s s' -> seen ty s = true -> seen ty s' = true.
Proof.
  intros Hstep. unfold seen.
  destruct Hstep; cbn.
  - unfold StudySession.close. by destruct (_ || _).
  - unfold StudySession.inc_num_tasks_completed. cbn. by destruct (_ && _).
  - unfold StudySession.update_current_task_session_id.
    destruct (str_in_list _ _); [done|]. by destruct (String.eqb _ "running").
  - repeat (destruct (String.eqb ty _); [done|]). done.
  - repeat (destruct (String.eqb ty _); [done|]). done.
  - repeat (destruct (String.eqb ty _); [done|]). done.
  - unfold views.close_study_session. by destruct (_ || _).
  - done.
Qed.

Lemma seen_steps (ty : string) (s s' : StudySession.t) :
  rtc StudySession_step s s' -> seen ty s = true -> seen ty s' = true.
Proof. induction 1; eauto using seen_step. Qed.

Lemma page_tour_seen (self : TaskSession.t) (s : StudySession.t) :
  seen (Task.type (TaskSession.task self)) s = true ->
  TaskSession.page_tour self s = None.
Proof.
  unfold seen, TaskSession.page_tour, TaskSession.page_tour_block.
  generalize (Task.type (TaskSession.task self)) as ty. intros ty.
  destruct (String.eqb_spec ty "stdout") as [E|?];
    [subst ty; by intros -> |].
  destruct (String.eqb_spec ty "file_search") as [E|?];
    [subst ty; by intros -> |].
  destruct (String.eqb_spec ty "filesystem_change") as [E|?];
    [subst ty; by intros -> |].
  done.
Qed.

Lemma page_tour_unseen (self : TaskSession.t) (s : StudySession.t) :
  Task.type (TaskSession.task self) ∈ task_types ->
  seen (Task.type (TaskSession.task self)) s = false ->
  TaskSession.page_tour self s
  = if String.eqb (StudySession.status s) "training"
       && (StudySession.num_tasks_completed s =? 0)
    then Some (init_tour (Task.type (TaskSession.task self)))
    else Some (first_tour (Task.type (TaskSession.task self))).
Proof.
  unfold task_types. rewrite !elem_of_cons, elem_of_nil.
  unfold seen, TaskSession.page_tour, TaskSession.page_tour_block.
  intros [E|[E|[E|[]]]]; rewrite E; cbn; intros ->; cbn;
    by destruct (_ && _).
Qed.

(** A later training task of a type not yet seen gets the 'first' tour. *)
Lemma page_tour_later_training_task (self : TaskSession.t)
    (s : StudySession.t) :
  Task.type (TaskSession.task self) ∈ task_types ->
  seen (Task.type (TaskSession.task self)) s = false ->
  StudySession.status s = "training" ->
  StudySession.num_tasks_completed s <> 0 ->
  TaskSession.page_tour self s
  = Some (first_tour (Task.type (TaskSession.task self))).
Proof.
  intros Hty Hseen Hst Hn. rewrite page_tour_unseen by done.
  apply Z.eqb_neq in Hn. by rewrite Hn, andb_false_r.
Qed.

(** After [close], raised or not, the seen-flag of the task's type is set
    on the study session in the database. *)
Lemma close_sets_seen (reason : string) (self : TaskSession.t)
    (s : StudySession.t) (w : world) :
  Task.type (TaskSession.task self) ∈ task_types ->
  StudySession_objects w !! TaskSession.study_session self = Some s ->
  StudySession.session_id s = TaskSession.study_session self ->
  exists s',
    StudySession_objects (TaskSession.close reason self w).2
      !! TaskSession.study_session self = Some s'
    /\ seen (Task.type (TaskSession.task self)) s' = true
    /\ rtc StudySession_step s s'.
Proof.
  unfold task_types. rewrite !elem_of_cons, elem_of_nil.
  intros Hty Hs Hid.
  unfold TaskSession.close, TaskSession.update_seen,
    TaskSession.get_study_session, seen.
  destruct Hty as [E|[E|[E|[]]]]; rewrite E; cbn; rewrite Hs.
  - destruct (StudySession.standard_output_seen s) eqn:Eseen; cbn.
    + exists s. destruct (TaskSession.container self); cbn; eauto using rtc_refl.
    + exists (StudySession.row (StudySession.set_standard_output_seen true s)).
      split; [|split; [reflexivity|]].
      * destruct (TaskSession.container self); cbn;
          rewrite Hid; apply lookup_insert_eq.
      * eapply rtc_l; [apply (step_update_standard_output_seen s w)|].
        apply rtc_once, step_save.
  - destruct (StudySession.file_search_seen s) eqn:Eseen; cbn.
    + exists s. destruct (TaskSession.container self); cbn; eauto using rtc_refl.
    + exists (StudySession.row (StudySession.set_file_search_seen true s)).
      split; [|split; [reflexivity|]].
      * destruct (TaskSession.container self); cbn;
          rewrite Hid; apply lookup_insert_eq.
      * eapply rtc_l; [apply (step_update_file_search_seen s w)|].
        apply rtc_once, step_save.
  - destruct (StudySession.filesystem_change_seen s) eqn:Eseen; cbn.
    + exists s. destruct (TaskSession.container self); cbn; eauto using rtc_refl.
    + exists (StudySession.row (StudySession.set_filesystem_change_seen true s)).
      split; [|split; [reflexivity|]].
      * destruct (TaskSession.container self); cbn;
          rewrite Hid; apply lookup_insert_eq.
      * eapply rtc_l; [apply (step_update_filesystem_change_seen s w)|].
        apply rtc_once, step_save.
Qed.

(** C9, as stated, fails: the first training task of a type gets the
    'first' tour, not the 'init' tour, when it is not the first task of the
    training.  Here the study session is in training with one task
    completed, of type 'stdout', and the task is the first of type
    'file_search'. *)
Lemma page_tour_second_training_task :
  StudySession.status second_training_session = "training"
  /\ StudySession.num_tasks_completed second_training_session = 1
  /\ TaskSession.is_training second_training_task_session = true
  /\ Task.type (TaskSession.task second_training_task_session) = "file_search"
  /\ seen "file_search" second_training_session = false
  /\ TaskSession.page_tour second_training_task_session second_training_session
     = Some "first_file_search"
  /\ TaskSession.page_tour second_training_task_session second_training_session
     <> Some (init_tour "file_search").
Proof. split_and!; vm_compute; (reflexivity || discriminate). Qed.

(** C9, amended: for a task of one of the three types, the tour is decided
    by the seen-flag of the type on the study session.  While the flag is
    not set, the tour is 'init' when the study session is in training with
    nothing completed, and 'first' otherwise, on a scored task as on a
    later training task; once the flag is set there is no tour.  Closing
    the task session sets the flag on the row of the study session, and no
    method or view that works on that row clears it, so that no task
    session of the type gets a tour from what the row becomes. *)
Theorem page_tour_by_seen_flag (self : TaskSession.t) (s : StudySession.t) :
  Task.type (TaskSession.task self) ∈ task_types ->
  let ty := Task.type (TaskSession.task self) in
  (seen ty s = false -> StudySession.status s = "training" ->
   StudySession.num_tasks_completed s = 0 ->
   TaskSession.page_tour self s = Some (init_tour ty))
  /\ (seen ty s = false ->
      StudySession.status s <> "training"
      \/ StudySession.num_tasks_completed s <> 0 ->
      TaskSession.page_tour self s = Some (first_tour ty))
  /\ (seen ty s = true -> TaskSession.page_tour self s = None)
  /\ (forall reason (w : world),
        StudySession_objects w !! TaskSession.study_session self = Some s ->
        StudySession.session_id s = TaskSession.study_session self ->
        exists s1,
          StudySession_objects (TaskSession.close reason self w).2
            !! TaskSession.study_session self = Some s1
          /\ seen ty s1 = true
          /\ forall s2 self',
               rtc StudySession_step s1 s2 ->
               Task.type (TaskSession.task self') = ty ->
               TaskSession.page_tour self' s2 = None).
Proof.
  intros Hty ty. split; [|split; [|split]].
  - intros Hseen Hst Hn. rewrite page_tour_unseen by done.
    by rewrite Hst, Hn.
  - intros Hseen Hor. rewrite page_tour_unseen by done.
    destruct (String.eqb_spec (StudySession.status s) "training") as [E|E];
      [|done].
    destruct Hor as [Hst|Hn]; [done|].
    apply Z.eqb_neq in Hn. by rewrite Hn.
  - apply page_tour_seen.
  - intros reason w Hs Hid.
    destruct (close_sets_seen reason self s w Hty Hs Hid) as (s1 & Hl & H1 & _).
    exists s1. split; [exact Hl|]. split; [exact H1|].
    intros s2 self' Hsteps Hty'. apply page_tour_seen. rewrite Hty'.
    eapply seen_steps; eauto.
Qed.

Lemma page_tour_by_seen_flag_witness :
  TaskSession.page_tour ada_task_session ada_session
    = Some "first_standard_output"
  /\ exists s1,
      StudySession_objects (TaskSession.close "passed" ada_task_session ada_world).2
        !! "ada-lovelace-study_session-1" = Some s1
      /\ TaskSession.page_tour
           (sample_task_session "ada-lovelace-study_session-1"
              "ada-lovelace-study_session-1-task-2" "running") s1 = None.
Proof.
  assert (Hty : Task.type (TaskSession.task ada_task_session) ∈ task_types)
    by (vm_compute; apply list_elem_of_here).
  destruct (page_tour_by_seen_flag ada_task_session ada_session Hty)
    as (_ & Hfirst & _ & Hclose).
  split; [apply Hfirst; [reflexivity | left; discriminate]|].
  destruct (Hclose "passed" ada_world eq_refl eq_refl) as (s1 & Hl & _ & Hnone).
  exists s1. split; [exact Hl|]. apply Hnone; [apply rtc_refl | reflexivity].
Defined.

(** ** Resumption at login *)

Lemma close_study_session_raises (session : StudySession.t) (reason : string)
    (w : world) :
  StudySession.status session = "running"
  \/ StudySession.status session = "paused" ->
  let session' := StudySession.set_status reason
                    (StudySession.set_current_task_session_id "" session) in
  views.close_study_session session reason w
  = (Raise AttributeError, session', StudySession.save session' w).
Proof.
  intros H. unfold views.close_study_session.
  assert (E : String.eqb (StudySession.status session) "running"
              || String.eqb (StudySession.status session) "paused" = true).
  { apply orb_true_iff. rewrite !String.eqb_eq. exact H. }
  by rewrite E.
Qed.

Lemma running_sessions_stale_world :
  views.running_sessions ada stale_world = [earlier_session; later_session].
Proof. vm_compute. reflexivity. Qed.

(** C6 fails on the code: with two stale running study sessions of which
    only the later one has a running task session, the login marks the
    earlier one 'closed_with_error' in the database and then fails with
    AttributeError in [close_study_session], at [session.container]; no
    response is built and the later session is not returned.  It is the
    same when the task session of the earlier one is missing. *)
Theorem user_login_resumption_raises :
  (views.user_login_check_existing ada stale_world).1 = Raise AttributeError
  /\ StudySession.status
       <$> StudySession_objects
             (views.user_login_check_existing ada stale_world).2
           !! "ada-lovelace-study_session-1" = Some "closed_with_error"
  /\ StudySession.status
       <$> StudySession_objects
             (views.user_login_check_existing ada stale_world).2
           !! "ada-lovelace-study_session-2" = Some "running"
  /\ (views.user_login_check_existing ada corrupted_world).1
     = Raise AttributeError
  /\ StudySession.status
       <$> StudySession_objects
             (views.user_login_check_existing ada corrupted_world).2
           !! "ada-lovelace-study_session-1" = Some "closed_with_error".
Proof. vm_compute. repeat split. Qed.

(** * Further properties of the code *)

(** ** The scheduler at and beyond its bounds *)

(** X1: [pick_task] raises IndexError exactly for a count below -9 or from
    18 on; a count from -9 to -1 is a negative index into block I, so it
    serves the task that count + 9 serves; every count in between serves a
    scored task id. *)
Theorem pick_task_id_bounds (n : Z) :
  (views.pick_task_id n = Raise IndexError <-> n < -9 \/ 18 <= n)
  /\ (-9 <= n < 0 -> views.pick_task_id n = views.pick_task_id (n + 9))
  /\ (-9 <= n < 18 ->
      exists id, views.pick_task_id n = Ok id /\ id ∈ scored_task_ids).
Proof.
  assert (Hin : -9 <= n < 18 ->
                exists id, views.pick_task_id n = Ok id
                           /\ id ∈ scored_task_ids
                           /\ (n < 0 -> views.pick_task_id (n + 9) = Ok id)).
  { intros [H1 H2].
    assert (Hn : n = Z.of_nat (Z.to_nat (n + 9)) - 9) by lia.
    assert (Hk : (Z.to_nat (n + 9) < 27)%nat) by lia.
    revert Hn Hk. generalize (Z.to_nat (n + 9)) as k. intros k -> Hk.
    do 27 (destruct k as [|k];
           [eexists; split; [reflexivity|];
            split; [apply (bool_decide_unpack _); vm_compute; exact I|];
            first [ intros _; reflexivity | intros ?; exfalso; lia ] |]).
    lia. }
  split; [|split].
  - split.
    + intros H.
      destruct (Z.lt_ge_cases n (-9)) as [?|?]; [by left|].
      destruct (Z.lt_ge_cases n 18) as [?|?]; [|by right].
      destruct Hin as (id & E & _); [lia|]. congruence.
    + unfold views.pick_task_id, py_index.
      change (len TASK_BLOCK_I) with 9. change (len TASK_BLOCK_II) with 9.
      intros [H|H].
      * destruct (Z.ltb_spec n 9); [|lia].
        destruct (Z.ltb_spec n 0); [|lia].
        destruct (Z.ltb_spec (9 + n) 0); [done|lia].
      * destruct (Z.ltb_spec n 9); [lia|].
        destruct (Z.ltb_spec (n - 9) 0); [lia|].
        destruct (Z.ltb_spec (n - 9) 0); [lia|].
        rewrite (lookup_ge_None_2 TASK_BLOCK_II); [done|]. cbn. lia.
  - intros H. destruct Hin as (id & E & _ & E'); [lia|].
    rewrite E, E'; [done|lia].
  - intros H. destruct (Hin H) as (id & E & Hid & _). eauto.
Qed.

Lemma pick_task_id_bounds_witness :
  views.pick_task_id (-1) = views.pick_task_id 8
  /\ exists id, views.pick_task_id (-1) = Ok id /\ id ∈ scored_task_ids.
Proof.
  split.
  - refine (proj1 (proj2 (pick_task_id_bounds (-1))) _). lia.
  - refine (proj2 (proj2 (pick_task_id_bounds (-1))) _). lia.
Defined.

(** X2: a task that [pick_task] returns is a row of the task table, it
    carries the scheduled id, and it is the only row with that id. *)
Theorem pick_task_returns_scheduled_row (n : Z) (w : world) (t : Task.t) :
  views.pick_task n w = Ok t ->
  views.pick_task_id n = Ok (Task.task_id t)
  /\ t ∈ Task_objects w
  /\ forall t', t' ∈ Task_objects w -> Task.task_id t' = Task.task_id t ->
                t' = t.
Proof.
  unfold views.pick_task, views.Task_objects_get.
  destruct (views.pick_task_id n) as [id|e]; [|discriminate].
  destruct (filter _ (Task_objects w)) as [|t0 [|t1 l]] eqn:E;
    try discriminate.
  intros [= ->].
  assert (Hin : forall t', t' ∈ Task_objects w /\ Task.task_id t' = id
                           <-> t' = t).
  { intros t'. rewrite <- (list_elem_of_singleton t' t).
    rewrite <- E, list_elem_of_filter, bool_decide_spec. tauto. }
  destruct (proj2 (Hin t) eq_refl) as [Ht Hid].
  split; [by rewrite Hid|]. split; [exact Ht|].
  intros t' Ht' Hid'. apply Hin. split; [exact Ht'|congruence].
Qed.

Lemma pick_task_returns_scheduled_row_witness :
  views.pick_task_id 9 = Ok (Task.task_id (sample_task 8 "stdout"))
  /\ sample_task 8 "stdout" ∈ Task_objects study_world.
Proof.
  destruct (pick_task_returns_scheduled_row 9 study_world
              (sample_task 8 "stdout") eq_refl) as (H1 & H2 & _).
  exact (conj H1 H2).
Defined.

(** ** Stages, parts and treatments *)

Lemma switch_point_is_9 (s : StudySession.t) : StudySession.switch_point s = 9.
Proof. unfold StudySession.switch_point. by destruct (str_in_list _ _). Qed.

Lemma stage_running (s : StudySession.t) :
  StudySession.status s = "running" ->
  StudySession.num_tasks_completed s <= StudySession.total_num_tasks s ->
  StudySession.stage s
  = if StudySession.num_tasks_completed s <? 9 then Ok "I"
    else if StudySession.num_tasks_completed s <? StudySession.total_num_tasks s
    then Ok "II" else Ok "III".
Proof.
  intros Hst Hle. unfold StudySession.stage. rewrite switch_point_is_9, Hst.
  apply Z.leb_le in Hle. by rewrite Hle.
Qed.

(** X4: for a running session whose count is within the total (the total
    being at least the switch point), [stage_change] holds exactly at the
    start and where the stage differs from the stage one task earlier. *)
Theorem stage_change_marks_stage_boundary (s : StudySession.t) :
  StudySession.status s = "running" ->
  StudySession.switch_point s <= StudySession.total_num_tasks s ->
  0 <= StudySession.num_tasks_completed s <= StudySession.total_num_tasks s ->
  StudySession.stage_change s = true
  <-> (StudySession.num_tasks_completed s = 0
       \/ StudySession.stage
            (StudySession.set_num_tasks_completed
               (StudySession.num_tasks_completed s - 1) s)
          <> StudySession.stage s).
Proof.
  intros Hst Hsp [H0 Hle]. rewrite switch_point_is_9 in Hsp.
  rewrite (stage_running s Hst Hle).
  destruct (Z.eq_dec (StudySession.num_tasks_completed s) 0) as [E0|N0].
  { unfold StudySession.stage_change. rewrite Hst, E0. cbn. tauto. }
  rewrite (stage_running (StudySession.set_num_tasks_completed _ s));
    [|exact Hst|cbn; lia].
  unfold StudySession.stage_change. rewrite Hst, switch_point_is_9. cbn.
  destruct (Z.eqb_spec (StudySession.num_tasks_completed s) 0); [lia|].
  destruct (Z.eqb_spec (StudySession.num_tasks_completed s) 9);
  destruct (Z.eqb_spec (StudySession.num_tasks_completed s)
              (StudySession.total_num_tasks s));
  destruct (Z.ltb_spec (StudySession.num_tasks_completed s - 1) 9);
  destruct (Z.ltb_spec (StudySession.num_tasks_completed s) 9);
  destruct (Z.ltb_spec (StudySession.num_tasks_completed s - 1)
              (StudySession.total_num_tasks s));
  destruct (Z.ltb_spec (StudySession.num_tasks_completed s)
              (StudySession.total_num_tasks s));
  cbn; try lia; split; try tauto; try (intros [?|?]; congruence || lia);
    try (intros _; right; congruence); try discriminate.
Qed.

Lemma stage_change_marks_stage_boundary_witness :
  StudySession.stage_change
    (sample_session ada "ada-lovelace-study_session-1" 0 "running" 9 "") = true.
Proof.
  apply (stage_change_marks_stage_boundary
           (sample_session ada "ada-lovelace-study_session-1" 0 "running" 9 "")).
  - reflexivity.
  - vm_compute. discriminate.
  - vm_compute. split; discriminate.
  - right. vm_compute. discriminate.
Defined.

(** X5: for a running session with tasks left, the part that
    [get_current_task] shows is the stage of the session, whatever the
    group: both blocks have the same length. *)
Theorem get_current_task_part_is_stage (s : StudySession.t) :
  StudySession.status s = "running" ->
  StudySession.num_tasks_completed s < StudySession.total_num_tasks s ->
  StudySession.stage s = Ok (views.get_current_task_part s).1
  /\ (views.get_current_task_part s).2 = StudySession.num_tasks_completed s + 1.
Proof.
  intros Hst Hlt. rewrite (stage_running s Hst) by lia.
  unfold views.get_current_task_part. cbn.
  change (len TASK_BLOCK_I) with 9.
  apply Z.ltb_lt in Hlt. rewrite Hlt.
  by destruct (_ <? 9).
Qed.

Lemma get_current_task_part_is_stage_witness :
  StudySession.stage
    (sample_session grace "grace-hopper-study_session-1" 0 "running" 12 "")
  = Ok "II".
Proof.
  refine (proj1 (get_current_task_part_is_stage
           (sample_session grace "grace-hopper-study_session-1" 0 "running" 12 "")
           _ _)).
  - reflexivity.
  - vm_compute. reflexivity.
Defined.

(** X6: the four groups realise the four combinations of task block order
    and treatment order, each exactly once; any other group name is
    treated as group2. *)
Theorem groups_cross_block_and_treatment_order (s s' : StudySession.t) :
  (User.group (StudySession.user s)
     ∈ ["group1"; "group2"; "group3"; "group4"] ->
   User.group (StudySession.user s')
     ∈ ["group1"; "group2"; "group3"; "group4"] ->
   StudySession.task_block_order s = StudySession.task_block_order s' ->
   StudySession.treatment_order s = StudySession.treatment_order s' ->
   User.group (StudySession.user s) = User.group (StudySession.user s'))
  /\ (StudySession.task_block_order s, StudySession.treatment_order s)
       ∈ [("0", "0"); ("0", "1"); ("1", "0"); ("1", "1")]
  /\ (forall b t, b ∈ ["0"; "1"] -> t ∈ ["0"; "1"] ->
      exists g, g ∈ ["group1"; "group2"; "group3"; "group4"]
        /\ forall s0, User.group (StudySession.user s0) = g ->
             StudySession.task_block_order s0 = b
             /\ StudySession.treatment_order s0 = t)
  /\ (User.group (StudySession.user s)
        ∉ ["group1"; "group3"; "group4"] ->
      StudySession.task_block_order s = "1"
      /\ StudySession.treatment_order s = "1").
Proof.
  unfold StudySession.task_block_order, StudySession.treatment_order.
  split; [|split; [|split]].
  - rewrite !elem_of_cons, !elem_of_nil.
    intros [->|[->|[->|[->|[]]]]] [->|[->|[->|[->|[]]]]]; cbn; congruence.
  - destruct (str_in_list _ ["group1"; "group4"]),
      (str_in_list _ ["group1"; "group3"]); set_solver.
  - intros b t. rewrite !elem_of_cons, !elem_of_nil.
    intros [->|[->|[]]] [->|[->|[]]].
    + exists "group1". split; [set_solver|]. by intros s0 ->.
    + exists "group4". split; [set_solver|]. by intros s0 ->.
    + exists "group3". split; [set_solver|]. by intros s0 ->.
    + exists "group2". split; [set_solver|]. by intros s0 ->.
  - rewrite !not_elem_of_cons. intros (H1 & H3 & H4 & _).
    apply String.eqb_neq in H1, H3, H4. cbn. by rewrite H1, H3, H4.
Qed.

(** X7: the treatment table gives every treatment order both treatments,
    one in stage I and the other in stage II, and the two orders get them
    in opposite order; it has no entry for the stages 'O' and 'III'. *)
Theorem treatment_assignments_balanced (s : StudySession.t) :
  (exists a b,
      treatment_assignments !! (StudySession.treatment_order s +:+ "I") = Some a
      /\ treatment_assignments !! (StudySession.treatment_order s +:+ "II")
         = Some b
      /\ a <> b
      /\ is_Some (treatment_names !! a)
      /\ is_Some (treatment_names !! b))
  /\ (forall s',
        StudySession.treatment_order s <> StudySession.treatment_order s' ->
        treatment_assignments !! (StudySession.treatment_order s +:+ "I")
        = treatment_assignments !! (StudySession.treatment_order s' +:+ "II")
        /\ treatment_assignments !! (StudySession.treatment_order s +:+ "I")
           <> treatment_assignments
                !! (StudySession.treatment_order s' +:+ "I"))
  /\ treatment_assignments !! (StudySession.treatment_order s +:+ "O") = None
  /\ treatment_assignments !! (StudySession.treatment_order s +:+ "III") = None.
Proof.
  unfold StudySession.treatment_order.
  split; [|split; [|split]].
  - destruct (str_in_list _ _).
    + exists "A", "B". repeat split; try done; by eexists.
    + exists "B", "A". repeat split; try done; by eexists.
  - intros s'. destruct (str_in_list _ _), (str_in_list _ _); try done;
      intros _; split; done.
  - by destruct (str_in_list _ _).
  - by destruct (str_in_list _ _).
Qed.

(** ** Closing twice, and the length of the training *)

(** X8: once a study session has been closed with a reason other than
    'running' and 'paused', closing it again changes nothing, neither the
    session nor the database: the first reason and close time stay.  A
    session closed with reason 'paused' is still open to a later close. *)
Theorem StudySession_close_twice (r1 r2 : string) (s : StudySession.t)
    (w : world) :
  r1 <> "running" -> r1 <> "paused" ->
  StudySession.close r2 (StudySession.close r1 s w).1
    (StudySession.close r1 s w).2
  = StudySession.close r1 s w
  /\ (StudySession.status s = "running" ->
      StudySession.status
        (StudySession.close r2 (StudySession.close "paused" s w).1
           (StudySession.close "paused" s w).2).1 = r2).
Proof.
  intros H1 H2. apply String.eqb_neq in H1, H2. split.
  - unfold StudySession.close.
    destruct (String.eqb (StudySession.status s) "running"
              || String.eqb (StudySession.status s) "paused") eqn:E; cbn.
    + by rewrite H1, H2.
    + by rewrite E.
  - intros Hs. unfold StudySession.close. rewrite Hs. reflexivity.
Qed.

Lemma StudySession_close_twice_witness :
  StudySession.close "closed_with_error"
    (StudySession.close "finished" ada_session ada_world).1
    (StudySession.close "finished" ada_session ada_world).2
  = StudySession.close "finished" ada_session ada_world.
Proof.
  refine (proj1 (StudySession_close_twice "finished" "closed_with_error"
                   ada_session ada_world _ _)); discriminate.
Defined.

Lemma inc_times_training (k : nat) (s : StudySession.t) (w : world) :
  StudySession.status s = "training" ->
  StudySession.num_tasks_completed s = 0 ->
  Z.of_nat k < StudySession.total_num_training_tasks s ->
  (inc_num_tasks_completed_times k s w).1
  = StudySession.set_num_tasks_completed (Z.of_nat k) s.
Proof.
  intros Hst Hn. induction k as [|k IH]; intros Hk.
  - destruct s; cbn in *. by subst.
  - cbn [inc_num_tasks_completed_times].
    destruct (inc_num_tasks_completed_times k s w) as [s1 w1].
    cbn in IH. rewrite IH by lia.
    unfold StudySession.inc_num_tasks_completed. cbn.
    rewrite Hst. cbn.
    destruct (Z.eqb_spec (Z.of_nat k + 1)
                (StudySession.total_num_training_tasks s)); [lia|].
    unfold StudySession.set_num_tasks_completed. cbn. f_equal. lia.
Qed.

(** X9: a session that starts the training with a count of zero stays in
    status 'training', counting up, for all increments but the last of the
    training; the increment that reaches the number of training tasks makes
    it 'running' with a count of zero, and from then on the count only
    grows. *)
Theorem training_lasts_all_training_tasks (T : nat) (s : StudySession.t)
    (w : world) :
  StudySession.status s = "training" ->
  StudySession.num_tasks_completed s = 0 ->
  StudySession.total_num_training_tasks s = Z.of_nat (S T) ->
  (forall k, (k <= T)%nat ->
     (inc_num_tasks_completed_times k s w).1
     = StudySession.set_num_tasks_completed (Z.of_nat k) s)
  /\ (forall j,
        (inc_num_tasks_completed_times (S T + j) s w).1
        = StudySession.set_status "running"
            (StudySession.set_num_tasks_completed (Z.of_nat j) s)).
Proof.
  intros Hst Hn HT. split.
  - intros k Hk. apply inc_times_training; [done..|lia].
  - induction j as [|j IH].
    + rewrite Nat.add_0_r. cbn [inc_num_tasks_completed_times].
      pose proof (inc_times_training T s w Hst Hn ltac:(lia)) as E.
      destruct (inc_num_tasks_completed_times T s w) as [s1 w1].
      cbn in E. rewrite E.
      unfold StudySession.inc_num_tasks_completed. cbn.
      rewrite Hst, HT. cbn.
      destruct (Z.eqb_spec (Z.of_nat T + 1) (Z.of_nat (S T))); [done|lia].
    + replace (S T + S j)%nat with (S (S T + j)) by lia.
      cbn [inc_num_tasks_completed_times].
      destruct (inc_num_tasks_completed_times (S T + j) s w) as [s1 w1].
      cbn in IH. rewrite IH.
      unfold StudySession.inc_num_tasks_completed,
        StudySession.set_num_tasks_completed, StudySession.set_status. cbn.
      f_equal. lia.
Qed.

Lemma training_lasts_all_training_tasks_witness :
  let s := sample_session ada "ada-lovelace-study_session-1" 0 "training" 0 "" in
  (inc_num_tasks_completed_times 2 s empty_world).1
  = StudySession.set_status "running"
      (StudySession.set_num_tasks_completed 0 s).
Proof.
  intros s.
  exact (proj2 (training_lasts_all_training_tasks 1 s empty_world
                  eq_refl eq_refl eq_refl) 0%nat).
Defined.

(** ** The identifiers of task sessions *)

Lemma string_app_assoc (a b c : string) : (a +:+ b) +:+ c = a +:+ b +:+ c.
Proof.
  induction a as [|x a IH]; [done|].
  change (String x ((a +:+ b) +:+ c) = String x (a +:+ b +:+ c)).
  by rewrite IH.
Qed.

Lemma startswith_app (p s : string) : startswith p (p +:+ s) = true.
Proof. apply startswith_spec. eauto. Qed.

(** X10: [update_current_task_session_id] raises ValueError, changing and
    saving nothing, unless the status is one of 'pre-consent',
    'pre-training', 'training' and 'running'.  The identifiers it returns
    start with the identifier of the study session; for one study session
    they are equal only for the same count in the same phase (training or
    scored); and none of them is an identifier that the view's
    [get_task_session_id] builds for that study session. *)
Theorem task_session_ids_distinct (s1 s2 : StudySession.t) (w1 w2 : world)
    (id1 id2 : string) :
  StudySession.session_id s1 = StudySession.session_id s2 ->
  (StudySession.update_current_task_session_id s1 w1).1.1 = Ok id1 ->
  (StudySession.update_current_task_session_id s2 w2).1.1 = Ok id2 ->
  startswith (StudySession.session_id s1) id1 = true
  /\ (id1 = id2 ->
      StudySession.num_tasks_completed s1 = StudySession.num_tasks_completed s2
      /\ (StudySession.status s1 = "running"
          <-> StudySession.status s2 = "running"))
  /\ (forall n, views.get_task_session_id (StudySession.session_id s1) n <> id1)
  /\ (forall s (w : world),
        StudySession.status s
          ∉ ["pre-consent"; "pre-training"; "training"; "running"] ->
        StudySession.update_current_task_session_id s w
        = (Raise ValueError, s, w)).
Proof.
  intros Hsid. unfold StudySession.update_current_task_session_id.
  rewrite <- Hsid.
  intros E1 E2.
  split; [|split; [|split]].
  - destruct (str_in_list (StudySession.status s1) _);
      [|destruct (String.eqb (StudySession.status s1) "running")];
      cbn in E1; try discriminate; injection E1 as <-; apply startswith_app.
  - intros <-.
    destruct (str_in_list (StudySession.status s1) _) eqn:L1;
      [|destruct (String.eqb_spec (StudySession.status s1) "running") as [R1|R1]];
      cbn in E1; try discriminate; injection E1 as E1;
    (destruct (str_in_list (StudySession.status s2) _) eqn:L2;
      [|destruct (String.eqb_spec (StudySession.status s2) "running") as [R2|R2]];
      cbn in E2; try discriminate; injection E2 as E2);
    rewrite <- E1 in E2; apply (inj (String.app _)) in E2;
      try discriminate E2.
    + apply (inj (String.app _)), (inj pretty) in E2.
      split; [lia|]. split; intros R; rewrite R in *; discriminate.
    + apply (inj (String.app _)), (inj pretty) in E2.
      split; [lia|]. tauto.
  - intros n E. unfold views.get_task_session_id in E.
    destruct (str_in_list (StudySession.status s1) _);
      [|destruct (String.eqb (StudySession.status s1) "running")];
      cbn in E1; try discriminate; injection E1 as E1;
      rewrite <- E1 in E; apply (inj (String.app _)) in E; discriminate E.
  - intros s w. rewrite !not_elem_of_cons.
    intros (H1 & H2 & H3 & H4 & _).
    apply String.eqb_neq in H1, H2, H3, H4.
    unfold str_in_list. cbn. by rewrite H1, H2, H3, H4.
Qed.

Lemma task_session_ids_distinct_witness :
  startswith "ada-lovelace-study_session-1"
    "ada-lovelace-study_session-1-task-1" = true.
Proof.
  exact (proj1 (task_session_ids_distinct ada_session ada_session
                  ada_world ada_world
                  "ada-lovelace-study_session-1-task-1"
                  "ada-lovelace-study_session-1-task-1"
                  eq_refl eq_refl eq_refl)).
Defined.

(** ** The host: what destroying and provisioning touch *)

(** X11: destroying a container removes that container and its filesystem
    and nothing else: the other containers and filesystems, the Container
    table (the row is not deleted) and the sessions are as before; and the
    order in which two containers are destroyed does not matter. *)
Theorem Container_destroy_frame (c : Container.t) (w : world) :
  docker (Container.destroy c w) !! Container.container_id c = None
  /\ (Container.filesystem_name c ∉ filesystems (Container.destroy c w))
  /\ (forall id, id <> Container.container_id c ->
        docker (Container.destroy c w) !! id = docker w !! id)
  /\ (forall name, name <> Container.filesystem_name c ->
        name ∈ filesystems (Container.destroy c w) <-> name ∈ filesystems w)
  /\ Container_objects (Container.destroy c w) = Container_objects w
  /\ TaskSession_objects (Container.destroy c w) = TaskSession_objects w
  /\ StudySession_objects (Container.destroy c w) = StudySession_objects w
  /\ (forall c', Container.destroy c (Container.destroy c' w)
                 = Container.destroy c' (Container.destroy c w)).
Proof.
  unfold Container.destroy, delete_filesystem, docker_rm, with_filesystems,
    with_docker. cbn.
  split; [apply lookup_delete_eq|].
  split; [set_solver|].
  split; [intros id Hne; by apply lookup_delete_ne|].
  split; [set_solver|].
  do 3 (split; [done|]).
  intros c'. f_equal.
  - apply delete_delete.
  - set_solver.
Qed.

(** X12: [create_container] undoes nothing when it fails.  Whatever the
    environment does, the filesystem has been made and the containers that
    were live stay so.  When the call returns a container, that container is
    live with the named filesystem as its home and one row has been added to
    the Container table.  When it raises after the daemon has made the
    container (in [os.utime] for tasks 7 and 8, or when the port is looked
    up), the new container is left live and has no row. *)
Theorem create_container_cleans_nothing_up (name : string) (task : Task.t)
    (fate : provisioning) (w : world) :
  dom (docker w) ⊆ docker_ids w ->
  let r := (create_container name task fate w).1 in
  let w' := (create_container name task fate w).2 in
  name ∈ filesystems w'
  /\ (forall id dc, docker w !! id = Some dc -> docker w' !! id = Some dc)
  /\ dom (docker w') ⊆ docker_ids w'
  /\ (forall c, r = Ok c ->
        (Container.container_id c ∉ docker_ids w)
        /\ Container.filesystem_name c = name
        /\ docker w' !! Container.container_id c
           = Some (mk_docker_container name (Container.port c))
        /\ Container_objects w' = Container_objects w ++ [c]
        /\ docker (Container.destroy c w') = docker w)
  /\ (forall e, r = Raise e ->
        Container_objects w' = Container_objects w
        /\ (fate = create_fails e /\ docker w' = docker w
            \/ fate <> create_fails e
               /\ exists id,
                    (id ∉ docker_ids w)
                    /\ docker w' !! id
                       = Some (mk_docker_container name (docker_next_port w))))
  /\ ((exists c, r = Ok c)
      <-> fate = provisioned
          \/ exists e, fate = utime_fails e
                       /\ Task.task_id task <> 7 /\ Task.task_id task <> 8).
Proof.
  intros Hdom r w'.
  assert (Hfresh : fresh (docker_ids w) ∉ docker_ids w) by apply is_fresh.
  assert (Hnone : docker w !! fresh (docker_ids w) = None).
  { apply not_elem_of_dom. set_solver. }
  assert (Hkeep : forall (dc0 : docker_container) id dc,
             docker w !! id = Some dc ->
             <[fresh (docker_ids w) := dc0]> (docker w) !! id = Some dc).
  { intros dc0 id dc Hl. rewrite lookup_insert_ne; [done|]. congruence. }
  assert (H78 : (Task.task_id task =? 7) || (Task.task_id task =? 8) = false
                <-> Task.task_id task <> 7 /\ Task.task_id task <> 8).
  { rewrite orb_false_iff, !Z.eqb_neq. done. }
  subst r w'. unfold create_container.
  destruct fate as [|e0|e0|e0];
    destruct ((Task.task_id task =? 7) || (Task.task_id task =? 8)) eqn:E78;
    cbn.
  all: split; [set_solver|].
  all: split; [first [done | intros id dc Hl; by apply Hkeep]|].
  all: split; [first [done | rewrite dom_insert; set_solver]|].
  all: split;
    [first [by intros c [=]
           | intros c [= <-]; cbn;
             split_and!; first [done | apply lookup_insert_eq
                               | rewrite delete_insert_eq; by apply delete_id]]|].
  all: split;
    [first [by intros e [=]
           | intros e [= <-]; split; [done|];
             first [left; by split
                   | right; split; [done|]; exists (fresh (docker_ids w));
                     split; [done | apply lookup_insert_eq]]]|].
  all: try (split; [intros [c [=]] | intros [[=] | (e & [=] & _)]]; fail).
  - split; [auto | eauto].
  - split; [auto | eauto].
  - split; [intros [c [=]] | intros [[=] | (e & _ & H)]].
    apply H78 in H. discriminate.
  - split; [|eauto]. intros _. right. exists e0. split; [done|].
    by apply H78.
Qed.

Lemma create_container_cleans_nothing_up_witness :
  docker (create_container "ada-lovelace-study_session-1-task-2"
            (sample_task 7 "file_search") (utime_fails OSError) ada_world).2
    !! "c0ffee"
  = Some (mk_docker_container "ada-lovelace-study_session-1-task-1" 32768)
  /\ (create_container "ada-lovelace-study_session-1-task-2"
        (sample_task 7 "file_search") (utime_fails OSError) ada_world).1
     = Raise OSError
  /\ exists id,
       (id ∉ docker_ids ada_world)
       /\ docker (create_container "ada-lovelace-study_session-1-task-2"
                    (sample_task 7 "file_search") (utime_fails OSError)
                    ada_world).2 !! id
          = Some (mk_docker_container "ada-lovelace-study_session-1-task-2"
                    32769).
Proof.
  assert (H : dom (docker ada_world) ⊆ docker_ids ada_world).
  { cbn. rewrite dom_singleton_L. reflexivity. }
  destruct (create_container_cleans_nothing_up
              "ada-lovelace-study_session-1-task-2"
              (sample_task 7 "file_search") (utime_fails OSError) ada_world H)
    as (_ & Hkeep & _ & _ & Hraise & _).
  split; [apply Hkeep; reflexivity|]. split; [reflexivity|].
  destruct (Hraise OSError eq_refl) as [_ [[[=] _] | [_ Hid]]].
  exact Hid.
Defined.

(** X13: on a host in order [create_new_container] touches no container
    but the one that was bound and the one it makes, whatever the
    environment does to the provisioning: every other live container stays
    live, and the rows of the other task sessions and of the study sessions
    are as before.  On an object without a container the world is left as
    it is; and whenever the call raises, the object is left without a
    container and is not saved, so that the row of the task session still
    names the container it had. *)
Theorem create_new_container_frame (fate : provisioning)
    (self : TaskSession.t) (w : world) :
  host_in_order self w ->
  let r := (TaskSession.create_new_container fate self w).1.1 in
  let self' := (TaskSession.create_new_container fate self w).1.2 in
  let w' := (TaskSession.create_new_container fate self w).2 in
  (forall id dc,
      docker w !! id = Some dc ->
      (forall c0, TaskSession.container self = Some c0 ->
                  id <> Container.container_id c0) ->
      docker w' !! id = Some dc)
  /\ (forall k, k <> TaskSession.session_id self ->
        TaskSession_objects w' !! k = TaskSession_objects w !! k)
  /\ StudySession_objects w' = StudySession_objects w
  /\ (TaskSession.container self = None ->
      r = Raise AttributeError /\ self' = self /\ w' = w)
  /\ (forall e, r = Raise e ->
        TaskSession.container self' = None
        /\ TaskSession_objects w' = TaskSession_objects w).
Proof.
  intros [Hdom Hstray] r self' w'. subst r self' w'.
  unfold TaskSession.create_new_container, TaskSession.destroy_container.
  destruct (TaskSession.container self) as [c0|] eqn:Ec; [|by cbn].
  assert (Hkeep : forall (dc0 : docker_container) id dc,
             docker w !! id = Some dc -> id <> Container.container_id c0 ->
             <[fresh (docker_ids w) := dc0]>
               (delete (Container.container_id c0) (docker w)) !! id
             = Some dc).
  { intros dc0 id dc Hl Hne.
    assert (Hid : id ∈ docker_ids w) by (apply Hdom, elem_of_dom; eauto).
    rewrite lookup_insert_ne
      by (intros E; rewrite <- E in Hid; by apply is_fresh in Hid).
    by rewrite lookup_delete_ne. }
  unfold create_container. cbn.
  destruct fate as [|e0|e0|e0];
    destruct ((Task.task_id (TaskSession.task self) =? 7)
              || (Task.task_id (TaskSession.task self) =? 8)) eqn:E78;
    cbn.
  all: split;
    [intros id dc Hl Hne; specialize (Hne c0 eq_refl);
     first [by apply Hkeep | by rewrite lookup_delete_ne]|].
  all: split;
    [intros k Hk; first [done | by rewrite lookup_insert_ne]|].
  all: split; [done|].
  all: split; [done|].
  all: first [by intros e [=] | by intros e _].
Qed.

Lemma create_new_container_frame_witness :
  StudySession_objects
    (TaskSession.create_new_container (inspect_fails DockerException)
       ada_task_session ada_world).2
  = StudySession_objects ada_world
  /\ TaskSession_objects
       (TaskSession.create_new_container (inspect_fails DockerException)
          ada_task_session ada_world).2
       !! "ada-lovelace-study_session-1-task-1"
     = Some ada_task_session
  /\ docker (TaskSession.create_new_container (inspect_fails DockerException)
               ada_task_session ada_world).2 !! "c0ffee" = None.
Proof.
  assert (H : host_in_order ada_task_session ada_world).
  { split.
    - cbn. rewrite dom_singleton_L. reflexivity.
    - intros id (dc & Hl & Hm). cbn in Hl.
      apply lookup_singleton_Some in Hl as [<- <-].
      eexists. split; reflexivity. }
  destruct (create_new_container_frame (inspect_fails DockerException)
              ada_task_session ada_world H)
    as (_ & _ & Hs & _ & Hraise).
  split; [exact Hs|].
  destruct (Hraise DockerException eq_refl) as [_ Ht].
  split; [by rewrite Ht | reflexivity].
Defined.

(** ** Unbinding and closing a task session *)

(** X14: [destroy_container] on a bound task session destroys the container
    and clears the binding of the object in memory, but saves nothing: the
    row of the task session still names the destroyed container.  A second
    call raises AttributeError. *)
Theorem destroy_container_clears_binding (self : TaskSession.t) (w : world)
    (c : Container.t) :
  TaskSession.container self = Some c ->
  let '(r, self', w') := TaskSession.destroy_container self w in
  r = Ok tt
  /\ self' = TaskSession.set_container None self
  /\ w' = Container.destroy c w
  /\ docker w' !! Container.container_id c = None
  /\ TaskSession_objects w' = TaskSession_objects w
  /\ (TaskSession_objects w !! TaskSession.session_id self = Some self ->
      TaskSession.container
        <$> TaskSession_objects w' !! TaskSession.session_id self
      = Some (Some c))
  /\ TaskSession.destroy_container self' w' = (Raise AttributeError, self', w').
Proof.
  intros Hc. unfold TaskSession.destroy_container. rewrite Hc. cbn.
  split; [done|]. split; [done|]. split; [done|].
  split; [apply lookup_delete_eq|]. split; [done|].
  split; [|done]. intros ->. cbn. by rewrite Hc.
Qed.

Lemma destroy_container_clears_binding_witness :
  (TaskSession.destroy_container ada_task_session ada_world).1.1 = Ok tt
  /\ TaskSession.container
       <$> TaskSession_objects
             (TaskSession.destroy_container ada_task_session ada_world).2
           !! "ada-lovelace-study_session-1-task-1"
     = Some (Some ada_container).
Proof.
  pose proof (destroy_container_clears_binding ada_task_session ada_world
                ada_container eq_refl) as H.
  destruct (TaskSession.destroy_container ada_task_session ada_world)
    as [[r self'] w'].
  destruct H as (Hr & _ & _ & _ & _ & Hrow & _).
  split; [exact Hr|]. apply Hrow. reflexivity.
Defined.

(** X15: [close] on a task session with a container, its study session
    being in the database, succeeds whatever the status was: it sets end
    time and status, destroys the container and saves the task session; the
    binding to the destroyed container is kept; of the study session at
    most the seen-flags change. *)
Theorem TaskSession_close_bound (reason : string) (self : TaskSession.t)
    (w : world) (c : Container.t) :
  TaskSession.container self = Some c ->
  is_Some (StudySession_objects w !! TaskSession.study_session self) ->
  let '(r, self', w') := TaskSession.close reason self w in
  r = Ok tt
  /\ self' = TaskSession.set_status reason
               (TaskSession.set_end_time (timezone_now w) self)
  /\ TaskSession.container self' = Some c
  /\ TaskSession_objects w'
     = <[TaskSession.session_id self := self']> (TaskSession_objects w)
  /\ docker w' = delete (Container.container_id c) (docker w)
  /\ filesystems w' = filesystems w ∖ {[Container.filesystem_name c]}
  /\ Container_objects w' = Container_objects w.
Proof.
  intros Hc Hs. unfold TaskSession.close.
  destruct (update_seen_ok "stdout" StudySession.standard_output_seen
              StudySession.update_standard_output_seen self w) as [E1 U1];
    [intros; apply StudySession_save_up_to | exact Hs |].
  destruct (TaskSession.update_seen "stdout" _ _ self w) as [r1 w1].
  cbn in E1, U1. subst r1.
  assert (Hs1 : is_Some (StudySession_objects w1 !! TaskSession.study_session self)).
  { destruct U1 as (_&_&_&_&_&_&_&_&H). auto. }
  destruct (update_seen_ok "file_search" StudySession.file_search_seen
              StudySession.update_file_search_seen self w1) as [E2 U2];
    [intros; apply StudySession_save_up_to | exact Hs1 |].
  destruct (TaskSession.update_seen "file_search" _ _ self w1) as [r2 w2].
  cbn in E2, U2. subst r2.
  assert (Hs2 : is_Some (StudySession_objects w2 !! TaskSession.study_session self)).
  { destruct U2 as (_&_&_&_&_&_&_&_&H). auto. }
  destruct (update_seen_ok "filesystem_change" StudySession.filesystem_change_seen
              StudySession.update_filesystem_change_seen self w2) as [E3 U3];
    [intros; apply StudySession_save_up_to | exact Hs2 |].
  destruct (TaskSession.update_seen "filesystem_change" _ _ self w2) as [r3 w3].
  cbn in E3, U3. subst r3.
  pose proof (up_to_study_sessions_trans _ _ _
                (up_to_study_sessions_trans _ _ _ U1 U2) U3)
    as (Hclock & Hd & _ & _ & Hf & _ & Hco & Ht & _).
  cbn. rewrite Hc. cbn. unfold timezone_now.
  rewrite Hclock, Hd, Hf, Hco, Ht. repeat split; done.
Qed.

Lemma TaskSession_close_bound_witness :
  (TaskSession.close "passed" ada_task_session ada_world).1.1 = Ok tt
  /\ docker (TaskSession.close "passed" ada_task_session ada_world).2
     = delete "c0ffee" (docker ada_world).
Proof.
  pose proof (TaskSession_close_bound "passed" ada_task_session ada_world
                ada_container eq_refl) as H.
  destruct (TaskSession.close "passed" ada_task_session ada_world)
    as [[r self'] w'].
  destruct H as (Hr & _ & _ & _ & Hd & _).
  - vm_compute. eauto.
  - exact (conj Hr Hd).
Defined.

(** ** The views *)

(** X16: [close_study_session] returns normally exactly when the session
    is neither 'running' nor 'paused', and then changes nothing.  On a
    running or paused session it saves the session with the pointer cleared
    and the status set to the reason, and then raises AttributeError at
    [session.container]; no container is destroyed. *)
Theorem close_study_session_outcome (session : StudySession.t)
    (reason : string) (w : world) :
  ((views.close_study_session session reason w).1.1 = Ok tt
   <-> StudySession.status session <> "running"
       /\ StudySession.status session <> "paused")
  /\ (StudySession.status session <> "running" ->
      StudySession.status session <> "paused" ->
      views.close_study_session session reason w = (Ok tt, session, w))
  /\ (StudySession.status session = "running"
      \/ StudySession.status session = "paused" ->
      (views.close_study_session session reason w).1.1 = Raise AttributeError
      /\ StudySession_objects (views.close_study_session session reason w).2
           !! StudySession.session_id session
         = Some (StudySession.row
                   (StudySession.set_status reason
                      (StudySession.set_current_task_session_id "" session)))
      /\ docker (views.close_study_session session reason w).2 = docker w
      /\ filesystems (views.close_study_session session reason w).2
         = filesystems w).
Proof.
  unfold views.close_study_session.
  destruct (String.eqb_spec (StudySession.status session) "running") as [R|R];
    [|destruct (String.eqb_spec (StudySession.status session) "paused")
        as [P|P]]; cbn.
  - split; [split; [discriminate | tauto]|]. split; [tauto|].
    intros _. repeat split. apply lookup_insert_eq.
  - split; [split; [discriminate | tauto]|]. split; [tauto|].
    intros _. repeat split. apply lookup_insert_eq.
  - split; [tauto|]. split; [done|]. tauto.
Qed.

Lemma go_to_next_task_study_session (GET : gmap string string)
    (ts : TaskSession.t) (w : world) (s : StudySession.t) :
  StudySession_objects w !! TaskSession.study_session ts = Some s ->
  TaskSession.get_study_session ts w = Ok s.
Proof. unfold TaskSession.get_study_session. by intros ->. Qed.

(** X17: what [go_to_next_task] does to the task session.  If it is
    running and the request carries no reason, the view fails with KeyError
    and writes nothing; if it carries one, the task session is saved with
    that status and the current time as end time before anything else
    happens; a task session that is not running is left alone.  In no case
    does the table of task sessions get a new row. *)
Theorem go_to_next_task_closes_running (GET : gmap string string)
    (ts : TaskSession.t) (w : world) (s : StudySession.t) :
  StudySession_objects w !! TaskSession.study_session ts = Some s ->
  TaskSession_objects w !! TaskSession.session_id ts = Some ts ->
  let w' := (views.go_to_next_task GET ts w).2 in
  (TaskSession.status ts = "running" -> GET !! "reason_for_close" = None ->
   views.go_to_next_task GET ts w = (views.KeyError "reason_for_close", w))
  /\ (forall reason,
        TaskSession.status ts = "running" ->
        GET !! "reason_for_close" = Some reason ->
        TaskSession_objects w'
        = <[TaskSession.session_id ts :=
              TaskSession.set_status reason
                (TaskSession.set_end_time (timezone_now w) ts)]>
            (TaskSession_objects w))
  /\ (TaskSession.status ts <> "running" ->
      TaskSession_objects w' = TaskSession_objects w)
  /\ dom (TaskSession_objects w') = dom (TaskSession_objects w).
Proof.
  intros Hs Hts w'. subst w'.
  unfold views.go_to_next_task, views.close_study_session,
    views.StudySession_container.
  rewrite (go_to_next_task_study_session GET ts w s Hs).
  assert (Hdom : forall v,
            dom (<[TaskSession.session_id ts := v]> (TaskSession_objects w))
            = dom (TaskSession_objects w)).
  { intros v. rewrite dom_insert_L. apply elem_of_dom_2 in Hts. set_solver. }
  destruct (String.eqb_spec (TaskSession.status ts) "running") as [R|R];
    [destruct (GET !! "reason_for_close") as [reason|] eqn:EG|]; cbn;
    repeat case_match; simplify_eq/=.
  all: split; [done || discriminate | ].
  all: split; [ first [ done | discriminate | by intros reason' _ [= <-] ] | ].
  all: split; [ done | ].
  all: done || apply Hdom.
Qed.

Lemma stale_task_session_lookup :
  TaskSession_objects stale_world !! "ada-lovelace-study_session-2-task-1"
  = Some (sample_task_session "ada-lovelace-study_session-2"
            "ada-lovelace-study_session-2-task-1" "running").
Proof. reflexivity. Qed.

Lemma go_to_next_task_closes_running_witness :
  TaskSession.status
    <$> TaskSession_objects
          (views.go_to_next_task {[ "reason_for_close" := "passed" ]}
             (sample_task_session "ada-lovelace-study_session-2"
                "ada-lovelace-study_session-2-task-1" "running")
             stale_world).2
        !! "ada-lovelace-study_session-2-task-1"
  = Some "passed".
Proof.
  pose proof (go_to_next_task_closes_running
                {[ "reason_for_close" := "passed" ]}
                (sample_task_session "ada-lovelace-study_session-2"
                   "ada-lovelace-study_session-2-task-1" "running")
                stale_world later_session eq_refl
                stale_task_session_lookup) as (_ & H & _).
  rewrite (H "passed" eq_refl eq_refl).
  cbn. by rewrite lookup_insert_eq.
Defined.

(** X18: how [go_to_next_task] ends, the count being the completed count
    of the study session, plus one if the task session was running.  Above
    the total it fails with AssertionError.  Below the total it fails with
    AttributeError at [study_session.container] and the study session is
    not saved, so the increment is lost.  At the total it closes the study
    session as 'finished': a running or paused one is saved, with the new
    count, and the view then fails with AttributeError; for one that is
    already closed the view answers STUDY_SESSION_COMPLETE with the counts
    of passed and quit task sessions and empties both cookies. *)
Theorem go_to_next_task_outcome (GET : gmap string string)
    (ts : TaskSession.t) (w : world) (s : StudySession.t) (reason : string) :
  StudySession_objects w !! TaskSession.study_session ts = Some s ->
  GET !! "reason_for_close" = Some reason ->
  let running := String.eqb (TaskSession.status ts) "running" in
  let n := if running then StudySession.num_tasks_completed s + 1
           else StudySession.num_tasks_completed s in
  let s1 := if running then StudySession.set_num_tasks_completed n s else s in
  let w1 := if running
            then TaskSession.save
                   (TaskSession.set_status reason
                      (TaskSession.set_end_time (timezone_now w) ts)) w
            else w in
  (StudySession.total_num_tasks s < n ->
   views.go_to_next_task GET ts w = (views.Uncaught AssertionError, w1))
  /\ (n < StudySession.total_num_tasks s ->
      views.go_to_next_task GET ts w = (views.Uncaught AttributeError, w1))
  /\ (n = StudySession.total_num_tasks s ->
      StudySession.status s = "running" \/ StudySession.status s = "paused" ->
      views.go_to_next_task GET ts w
      = (views.Uncaught AttributeError,
         StudySession.save
           (StudySession.set_status "finished"
              (StudySession.set_current_task_session_id "" s1)) w1))
  /\ (n = StudySession.total_num_tasks s ->
      StudySession.status s <> "running" ->
      StudySession.status s <> "paused" ->
      views.go_to_next_task GET ts w
      = (views.Respond
           (views.mk_http_response
              {[ "status" := views.JStr "STUDY_SESSION_COMPLETE";
                 "num_passed" :=
                   views.JInt (views.count_task_sessions s "passed" w1);
                 "num_given_up" :=
                   views.JInt (views.count_task_sessions s "quit" w1);
                 "num_total" := views.JInt (StudySession.total_num_tasks s) ]}
              [("session_id", ""); ("task_session_id", "")]), w1)).
Proof.
  intros Hs HG running n s1 w1.
  unfold views.go_to_next_task.
  rewrite (go_to_next_task_study_session GET ts w s Hs), HG.
  fold running.
  assert (E : (if running
               then inr (StudySession.set_num_tasks_completed
                           (StudySession.num_tasks_completed s + 1) s,
                         TaskSession.save
                           (TaskSession.set_status reason
                              (TaskSession.set_end_time (timezone_now w) ts)) w)
               else inr (s, w))
              = (inr (s1, w1) : string + StudySession.t * world)).
  { subst s1 w1 n. by destruct running. }
  rewrite E. clear E.
  assert (Hn : StudySession.num_tasks_completed s1 = n).
  { subst s1. by destruct running. }
  assert (Ht : StudySession.total_num_tasks s1 = StudySession.total_num_tasks s).
  { subst s1. by destruct running. }
  assert (Hst : StudySession.status s1 = StudySession.status s).
  { subst s1. by destruct running. }
  cbn zeta. rewrite Hn, Ht.
  split; [|split; [|split]].
  - intros H. destruct (Z.leb_spec n (StudySession.total_num_tasks s)); [lia|].
    done.
  - intros H. destruct (Z.leb_spec n (StudySession.total_num_tasks s)); [|lia].
    destruct (Z.eqb_spec n (StudySession.total_num_tasks s)); [lia|]. done.
  - intros H Hrp. rewrite H, Z.leb_refl, Z.eqb_refl. cbn.
    rewrite <- Hst in Hrp.
    by rewrite (close_study_session_raises s1 "finished" w1 Hrp).
  - intros H R P. rewrite H, Z.leb_refl, Z.eqb_refl. cbn.
    unfold views.close_study_session. rewrite Hst.
    apply String.eqb_neq in R, P. rewrite R, P. cbn.
    unfold views.json_response, views.set_cookie. cbn.
    do 2 f_equal. f_equal.
    + rewrite Ht.
      assert (Hc : forall st, views.count_task_sessions s1 st w1
                              = views.count_task_sessions s st w1).
      { intros st. unfold views.count_task_sessions. subst s1.
        by destruct running. }
      by rewrite !Hc.
Qed.

Lemma go_to_next_task_outcome_witness :
  (views.go_to_next_task {[ "reason_for_close" := "passed" ]}
     (sample_task_session "ada-lovelace-study_session-2"
        "ada-lovelace-study_session-2-task-1" "running")
     stale_world).1 = views.Uncaught AttributeError.
Proof.
  pose proof (go_to_next_task_outcome
                {[ "reason_for_close" := "passed" ]}
                (sample_task_session "ada-lovelace-study_session-2"
                   "ada-lovelace-study_session-2-task-1" "running")
                stale_world later_session "passed" eq_refl eq_refl)
    as (_ & H & _).
  rewrite H; [reflexivity|]. vm_compute. reflexivity.
Defined.

(** ** Resumption at login, when nothing has to be closed *)

Lemma insert_by_creation_time_perm (s : StudySession.t)
    (l : list StudySession.t) :
  views.insert_by_creation_time s l ≡ₚ s :: l.
Proof.
  induction l as [|x l IH]; cbn; [done|].
  destruct (_ <? _); [done|]. rewrite IH. apply Permutation_swap.
Qed.

Lemma order_by_creation_time_perm (l : list StudySession.t) :
  views.order_by_creation_time l ≡ₚ l.
Proof.
  induction l as [|x l IH]; cbn; [done|].
  rewrite insert_by_creation_time_perm. by rewrite IH.
Qed.

Lemma running_sessions_elem_of (user : User.t) (w : world)
    (x : StudySession.t) :
  x ∈ views.running_sessions user w
  <-> (exists k, StudySession_objects w !! k = Some x)
      /\ User.pk (StudySession.user x) = User.pk user
      /\ StudySession.status x = "running".
Proof.
  unfold views.running_sessions.
  rewrite order_by_creation_time_perm, list_elem_of_filter, bool_decide_spec.
  rewrite list_elem_of_fmap. split.
  - intros [HP ([k y] & -> & Hin)]. apply elem_of_map_to_list in Hin. eauto.
  - intros [[k Hk] HP]. split; [done|]. exists (k, x).
    split; [done|]. by apply elem_of_map_to_list.
Qed.

(** X19: the query of [user_login] returns exactly the running study
    sessions of the user.  If there is none, the login reports that no
    session exists; if there is exactly one and its current task session is
    running or paused, the login answers RUNNING_STUDY_SESSION_FOUND with
    that session's identifiers as cookies.  In both cases nothing is
    written. *)
Theorem user_login_resumes_single_session (user : User.t) (w : world) :
  (forall x, x ∈ views.running_sessions user w
     <-> (exists k, StudySession_objects w !! k = Some x)
         /\ User.pk (StudySession.user x) = User.pk user
         /\ StudySession.status x = "running")
  /\ ((forall k x, StudySession_objects w !! k = Some x ->
         User.pk (StudySession.user x) = User.pk user ->
         StudySession.status x <> "running") ->
      views.user_login_check_existing user w = (Ok None, w))
  /\ (forall session ts,
        views.running_sessions user w = [session] ->
        TaskSession_objects w !! StudySession.current_task_session_id session
          = Some ts ->
        TaskSession.status ts = "running" \/ TaskSession.status ts = "paused" ->
        views.user_login_check_existing user w
        = (Ok (Some (views.mk_response "RUNNING_STUDY_SESSION_FOUND"
                       (StudySession.current_task_session_id session)
                       [("session_id", StudySession.session_id session);
                        ("task_session_id",
                         StudySession.current_task_session_id session)])),
           w)).
Proof.
  split; [apply running_sessions_elem_of|]. split.
  - intros Hnone. unfold views.user_login_check_existing.
    assert (E : views.running_sessions user w = []).
    { destruct (views.running_sessions user w) as [|x l] eqn:E; [done|].
      assert (Hx : x ∈ views.running_sessions user w)
        by (rewrite E; apply list_elem_of_here).
      apply running_sessions_elem_of in Hx as ([k Hk] & Hu & Hst).
      by destruct (Hnone k x). }
    by rewrite E.
  - intros session ts E Hts Hst. unfold views.user_login_check_existing.
    rewrite E. cbn. rewrite Hts.
    assert (Eb : String.eqb (TaskSession.status ts) "running"
                 || String.eqb (TaskSession.status ts) "paused" = true).
    { apply orb_true_iff. by rewrite !String.eqb_eq. }
    by rewrite Eb.
Qed.

(** ** The decorators and the responses *)

(** X20: a call of [json_response] without a dictionary gives a body that
    holds the status and nothing else, as long as the shared default
    dictionary holds the key 'status' at most, which the call preserves.
    With a dictionary given, its entries are kept and the status entry is
    set, also over a 'status' entry of the dictionary. *)
Theorem json_response_body (status : string)
    (default_d d : gmap string views.jvalue) :
  dom default_d ⊆ {["status"]} ->
  (views.json_response_default status default_d).1
    = views.json_response ∅ status
  /\ views.json (views.json_response_default status default_d).1
     = {[ "status" := views.JStr status ]}
  /\ dom (views.json_response_default status default_d).2 ⊆ {["status"]}
  /\ views.json (views.json_response d status) !! "status"
     = Some (views.JStr status)
  /\ (forall k, k <> "status" ->
        views.json (views.json_response d status) !! k = d !! k).
Proof.
  intros Hdom.
  assert (E : <["status" := views.JStr status]> default_d
              = {[ "status" := views.JStr status ]}).
  { apply map_eq. intros k. destruct (decide (k = "status")) as [->|Hk].
    - by rewrite lookup_insert_eq, lookup_singleton_eq.
    - rewrite lookup_insert_ne, lookup_singleton_ne by done.
      apply not_elem_of_dom. set_solver. }
  unfold views.json_response_default, views.json_response. cbn.
  rewrite E. split; [by rewrite insert_empty|]. split; [done|].
  split; [by rewrite dom_singleton_L|].
  split; [apply lookup_insert_eq|].
  intros k Hk. by rewrite lookup_insert_ne.
Qed.

Lemma json_response_body_witness :
  views.json (views.json_response_default "SUCCESS" ∅).1
  = {[ "status" := views.JStr "SUCCESS" ]}.
Proof.
  refine (proj1 (proj2 (json_response_body "SUCCESS" ∅ ∅ _))).
  rewrite dom_empty_L. apply empty_subseteq.
Defined.

(** X21: [task_session_id_required], given both cookies.  A task session
    cookie that does not start with the session cookie is answered with a
    mismatch, an unknown one with TASK_SESSION_DOES_NOT_EXIST, and neither
    runs the view; an ObjectDoesNotExist raised inside the view is answered
    with TASK_SESSION_DOES_NOT_EXIST as well, what the view has written
    being kept: so is a task session whose study session is missing, under
    [go_to_next_task].  The prefix test lets through the task sessions of
    any study session whose identifier extends the session cookie, such as
    a participant's tenth study session under the cookie of the first. *)
Theorem task_session_id_required_checks
    (f : TaskSession.t -> world -> views.outcome views.http_response * world)
    (COOKIES : gmap string string) (w : world) (sid tid : string) :
  COOKIES !! "session_id" = Some sid ->
  COOKIES !! "task_session_id" = Some tid ->
  (startswith sid tid = false ->
   views.task_session_id_required f COOKIES w
   = (views.Respond
        (views.json_response ∅ "STUDY_SESSION_AND_TASK_SESSION_MISMATCH"), w))
  /\ (startswith sid tid = true -> TaskSession_objects w !! tid = None ->
      views.task_session_id_required f COOKIES w
      = (views.Respond (views.json_response ∅ "TASK_SESSION_DOES_NOT_EXIST"),
         w))
  /\ (forall ts w',
        startswith sid tid = true -> TaskSession_objects w !! tid = Some ts ->
        f ts w = (views.Uncaught ObjectDoesNotExist, w') ->
        views.task_session_id_required f COOKIES w
        = (views.Respond (views.json_response ∅ "TASK_SESSION_DOES_NOT_EXIST"),
           w'))
  /\ (forall GET ts,
        startswith sid tid = true -> TaskSession_objects w !! tid = Some ts ->
        StudySession_objects w !! TaskSession.study_session ts = None ->
        views.task_session_id_required (views.go_to_next_task GET) COOKIES w
        = (views.Respond (views.json_response ∅ "TASK_SESSION_DOES_NOT_EXIST"),
           w))
  /\ (forall x n,
        startswith sid (views.get_task_session_id (sid +:+ x) n) = true)
  /\ (forall access_code n,
        startswith (views.new_study_session_id access_code 0)
          (views.get_task_session_id
             (views.new_study_session_id access_code 9) n) = true).
Proof.
  intros Hsid Htid.
  assert (Hext : forall x n,
            startswith sid (views.get_task_session_id (sid +:+ x) n) = true).
  { intros x n. unfold views.get_task_session_id.
    rewrite string_app_assoc. apply startswith_app. }
  split; [|split; [|split; [|split; [|split]]]].
  - intros E. unfold views.task_session_id_required.
    by rewrite Hsid, Htid, E.
  - intros E Hn. unfold views.task_session_id_required.
    by rewrite Hsid, Htid, E, Hn.
  - intros ts w' E Hts Hf. unfold views.task_session_id_required.
    by rewrite Hsid, Htid, E, Hts, Hf.
  - intros GET ts E Hts Hss. unfold views.task_session_id_required.
    rewrite Hsid, Htid, E, Hts. cbn.
    unfold views.go_to_next_task, TaskSession.get_study_session.
    by rewrite Hss.
  - exact Hext.
  - intros access_code n. unfold views.get_task_session_id,
      views.new_study_session_id.
    change (pretty (9 + 1)) with (pretty (0 + 1) +:+ "0").
    rewrite !string_app_assoc. apply startswith_spec.
    eexists. rewrite !string_app_assoc. reflexivity.
Qed.

Lemma task_session_id_required_checks_witness :
  views.task_session_id_required
    (views.go_to_next_task ∅)
    {[ "session_id" := "ada-lovelace-study_session-1";
       "task_session_id" := "ada-lovelace-study_session-2-task-1" ]}
    stale_world
  = (views.Respond
       (views.json_response ∅ "STUDY_SESSION_AND_TASK_SESSION_MISMATCH"),
     stale_world).
Proof.
  apply (task_session_id_required_checks (views.go_to_next_task ∅) _ _
           "ada-lovelace-study_session-1"
           "ada-lovelace-study_session-2-task-1"); reflexivity.
Defined.

(** ** Registration *)

Lemma User_objects_filter_app (first last : string) (l1 l2 : list User.t) :
  views.User_objects_filter first last (l1 ++ l2)
  = views.User_objects_filter first last l1
    ++ views.User_objects_filter first last l2.
Proof. apply filter_app. Qed.

Lemma User_objects_filter_one (first last : string) (u : User.t) :
  views.User_objects_filter first last [u]
  = if bool_decide (User.first_name u = first /\ User.last_name u = last)
    then [u] else [].
Proof.
  unfold views.User_objects_filter. rewrite filter_cons, filter_nil.
  by destruct (bool_decide _).
Qed.

Lemma access_code_has_dash (a b : string) : str_in "-" (a +:+ "-" +:+ b) = true.
Proof. apply str_in_spec. eauto. Qed.

(** X22: registering names that are not in the table answers with the
    access code, the lower-cased names joined by a dash, and adds the user;
    [retrieve_access_code] for the same names then answers with that code,
    and registering them again answers USER_EXISTS and adds nothing.  The
    code is never one of the two words the views use in its place. *)
Theorem register_then_retrieve (lower : string -> string)
    (GET : gmap string string) (users : list User.t) (first last : string) :
  GET !! "first_name" = Some first ->
  GET !! "last_name" = Some last ->
  views.User_objects_filter first last users = [] ->
  let code := lower first +:+ "-" +:+ lower last in
  let users' := (views.register_user lower GET users).2 in
  (views.register_user lower GET users).1
    = views.Respond
        (views.json_response {[ "access_code" := views.JStr code ]} "SUCCESS")
  /\ users' = users ++ [User.mk (views.next_pk users) code first last "group1"]
  /\ views.retrieve_access_code GET users'
     = views.Respond
         (views.mk_http_response {[ "access_code" := views.JStr code ]} [])
  /\ views.register_user lower GET users'
     = (views.Respond
          (views.json_response
             {[ "access_code" := views.JStr "USER_EXISTS" ]} "SUCCESS"),
        users')
  /\ code <> "USER_EXISTS"
  /\ code <> "USER_DOES_NOT_EXIST".
Proof.
  intros Hf Hl Hnone code users'.
  assert (E : views.register_user lower GET users
              = (views.Respond
                   (views.json_response
                      {[ "access_code" := views.JStr code ]} "SUCCESS"),
                 users ++ [User.mk (views.next_pk users) code first last
                             "group1"])).
  { unfold views.register_user. by rewrite Hf, Hl, Hnone. }
  assert (Hone : views.User_objects_filter first last users'
                 = [User.mk (views.next_pk users) code first last "group1"]).
  { subst users'. rewrite E. cbn [snd].
    rewrite User_objects_filter_app, Hnone, User_objects_filter_one. cbn.
    by rewrite bool_decide_eq_true_2. }
  split; [by rewrite E|]. split; [by subst users'; rewrite E|].
  split; [|split; [|split]].
  - unfold views.retrieve_access_code. by rewrite Hf, Hl, Hone.
  - unfold views.register_user. by rewrite Hf, Hl, Hone.
  - intros Hc. pose proof (access_code_has_dash (lower first) (lower last)) as H.
    fold code in H. rewrite Hc in H. discriminate.
  - intros Hc. pose proof (access_code_has_dash (lower first) (lower last)) as H.
    fold code in H. rewrite Hc in H. discriminate.
Qed.

Lemma register_then_retrieve_witness :
  views.retrieve_access_code
    {[ "first_name" := "Ada"; "last_name" := "Lovelace" ]}
    (views.register_user (fun s => s)
       {[ "first_name" := "Ada"; "last_name" := "Lovelace" ]} []).2
  = views.Respond
      (views.mk_http_response
         {[ "access_code" := views.JStr "Ada-Lovelace" ]} []).
Proof.
  exact (proj1 (proj2 (proj2
    (register_then_retrieve (fun s => s)
       {[ "first_name" := "Ada"; "last_name" := "Lovelace" ]} []
       "Ada" "Lovelace" eq_refl eq_refl eq_refl)))).
Defined.

Lemma next_pk_above (users : list User.t) (u : User.t) :
  u ∈ users -> User.pk u < views.next_pk users.
Proof.
  unfold views.next_pk. induction users as [|x l IH]; [by intros ?%elem_of_nil|].
  intros [->|Hin]%elem_of_cons; cbn.
  - lia.
  - specialize (IH Hin). lia.
Qed.

(** X23: [register_user] keeps the table of users in order: if no two
    users share first and last name and no two share a primary key
    before, the same holds after, whatever the request; the rows there were
    are kept as they are; and on such a table [retrieve_access_code] never
    fails with MultipleObjectsReturned. *)
Theorem register_user_keeps_names_unique (lower : string -> string)
    (GET : gmap string string) (users : list User.t) :
  (forall first last,
     (length (views.User_objects_filter first last users) <= 1)%nat) ->
  NoDup (User.pk <$> users) ->
  let users' := (views.register_user lower GET users).2 in
  (forall first last,
     (length (views.User_objects_filter first last users') <= 1)%nat)
  /\ NoDup (User.pk <$> users')
  /\ users `prefix_of` users'
  /\ (forall GET',
        views.retrieve_access_code GET' users'
        <> views.Uncaught MultipleObjectsReturned).
Proof.
  intros Huniq Hpk users'.
  assert (H' : (forall first last,
                  (length (views.User_objects_filter first last users') <= 1)%nat)
               /\ NoDup (User.pk <$> users')
               /\ users `prefix_of` users').
  { subst users'. unfold views.register_user.
    destruct (GET !! "first_name") as [first|]; [|by split; [|split]].
    destruct (GET !! "last_name") as [last|]; [|by split; [|split]].
    destruct (views.User_objects_filter first last users) as [|u l] eqn:E;
      [|by split; [|split]].
    cbn [snd]. split; [|split].
    - intros f l. rewrite User_objects_filter_app, length_app,
        User_objects_filter_one.
      destruct (bool_decide_reflect
                  (User.first_name
                     (User.mk (views.next_pk users)
                        (lower first +:+ "-" +:+ lower last) first last
                        "group1") = f
                   /\ User.last_name
                        (User.mk (views.next_pk users)
                           (lower first +:+ "-" +:+ lower last) first last
                           "group1") = l)) as [[<- <-]|_]; cbn.
      + rewrite E. cbn. lia.
      + specialize (Huniq f l). lia.
    - rewrite fmap_app. apply NoDup_app. split; [done|]. split.
      + intros pk Hin Hin'. cbn in Hin'.
        apply list_elem_of_singleton in Hin'. subst pk.
        apply list_elem_of_fmap in Hin as (u & Hu & Hin).
        apply next_pk_above in Hin. lia.
      + cbn. apply NoDup_singleton.
    - by apply prefix_app_r. }
  destruct H' as (H1 & H2 & H3). repeat split; try done.
  intros GET'. unfold views.retrieve_access_code.
  destruct (GET' !! "first_name") as [first|]; [|done].
  destruct (GET' !! "last_name") as [last|]; [|done].
  specialize (H1 first last).
  destruct (views.User_objects_filter first last users') as [|u [|u' l]];
    try done. cbn in H1. lia.
Qed.

Lemma register_user_keeps_names_unique_witness :
  NoDup (User.pk <$>
           (views.register_user (fun s => s)
              {[ "first_name" := "Ada"; "last_name" := "Lovelace" ]} []).2).
Proof.
  refine (proj1 (proj2 (register_user_keeps_names_unique (fun s => s)
                          {[ "first_name" := "Ada"; "last_name" := "Lovelace" ]}
                          [] _ _))).
  - intros first last. cbn. lia.
  - apply NoDup_nil_2.
Defined.

(** ** What closing a task session does to its study session *)

(** X24: [close] writes the study session only to set the seen-flag of
    the task's type, and only when that flag is not set yet.  For a task of
    another type, or with the flag already set, the table of study sessions
    is left as it is; otherwise the row of the study session gets the flag
    of that type, the other flags, the status, the count and the pointer to
    the current task session staying as they were. *)
Theorem TaskSession_close_writes_seen_flag_only (reason : string)
    (self : TaskSession.t) (w : world) (s : StudySession.t) :
  StudySession_objects w !! TaskSession.study_session self = Some s ->
  let ty := Task.type (TaskSession.task self) in
  let w' := (TaskSession.close reason self w).2 in
  (ty ∉ task_types -> StudySession_objects w' = StudySession_objects w)
  /\ (seen ty s = true -> StudySession_objects w' = StudySession_objects w)
  /\ (ty ∈ task_types -> seen ty s = false ->
      exists s',
        StudySession_objects w'
        = <[StudySession.session_id s := s']> (StudySession_objects w)
        /\ seen ty s' = true
        /\ (forall ty', ty' <> ty -> seen ty' s' = seen ty' s)
        /\ StudySession.status s' = StudySession.status s
        /\ StudySession.num_tasks_completed s'
           = StudySession.num_tasks_completed s
        /\ StudySession.current_task_session_id s'
           = StudySession.current_task_session_id s
        /\ StudySession.user s' = StudySession.user s).
Proof.
  intros Hs ty w'. subst w'.
  assert (Hend : forall (w0 : world),
            StudySession_objects
              (let self0 := TaskSession.set_end_time (timezone_now w0) self in
               match TaskSession.container self0 with
               | Some c =>
                   (Ok tt, TaskSession.set_status reason self0,
                    TaskSession.save (TaskSession.set_status reason self0)
                      (Container.destroy c w0))
               | None => (Raise AttributeError, self0, w0)
               end).2
            = StudySession_objects w0).
  { intros w0. cbn. by destruct (TaskSession.container self). }
  unfold TaskSession.close, TaskSession.update_seen,
    TaskSession.get_study_session.
  fold ty.
  split; [|split].
  - unfold task_types. rewrite !not_elem_of_cons.
    intros (H1 & H2 & H3 & _). apply String.eqb_neq in H1, H2, H3.
    rewrite H1, H2, H3. apply Hend.
  - unfold seen.
    destruct (String.eqb ty "stdout") eqn:E1.
    { intros Hseen. rewrite Hs, Hseen. cbn.
      apply String.eqb_eq in E1. rewrite E1. cbn. apply Hend. }
    destruct (String.eqb ty "file_search") eqn:E2.
    { intros Hseen. rewrite Hs, Hseen. cbn.
      apply String.eqb_eq in E2. rewrite E2. cbn. apply Hend. }
    destruct (String.eqb ty "filesystem_change") eqn:E3; [|discriminate].
    intros Hseen. rewrite Hs, Hseen. cbn. apply Hend.
  - unfold task_types, seen. rewrite !elem_of_cons, elem_of_nil.
    intros [E|[E|[E|[]]]]; rewrite E; cbn; intros Hseen;
      rewrite Hs, Hseen; cbn.
    + exists (StudySession.row (StudySession.set_standard_output_seen true s)).
      split; [by destruct (TaskSession.container self)|]. cbn. split; [done|].
      split; [|done]. intros ty' Hne. apply String.eqb_neq in Hne.
      by rewrite Hne.
    + exists (StudySession.row (StudySession.set_file_search_seen true s)).
      split; [by destruct (TaskSession.container self)|]. cbn. split; [done|].
      split; [|done]. intros ty' Hne. apply String.eqb_neq in Hne.
      rewrite Hne. by destruct (String.eqb ty' "stdout").
    + exists (StudySession.row (StudySession.set_filesystem_change_seen true s)).
      split; [by destruct (TaskSession.container self)|]. cbn. split; [done|].
      split; [|done]. intros ty' Hne. apply String.eqb_neq in Hne.
      rewrite Hne.
      by destruct (String.eqb ty' "stdout"), (String.eqb ty' "file_search").
Qed.

Lemma TaskSession_close_writes_seen_flag_only_witness :
  exists s',
    StudySession_objects (TaskSession.close "passed" ada_task_session ada_world).2
    = <["ada-lovelace-study_session-1" := s']> (StudySession_objects ada_world)
    /\ StudySession.standard_output_seen s' = true
    /\ StudySession.file_search_seen s' = false.
Proof.
  destruct (proj2 (proj2 (TaskSession_close_writes_seen_flag_only "passed"
                            ada_task_session ada_world ada_session eq_refl)))
    as (s' & Hw & Hseen & Hother & _).
  - vm_compute. apply list_elem_of_here.
  - reflexivity.
  - exists s'. split; [exact Hw|]. split; [exact Hseen|].
    exact (Hother "file_search" ltac:(discriminate)).
Defined.
